(** * Inference Recommender mixin: request shaping and the deploy-time guard

    A shallow embedding of
    [src/sagemaker/inference_recommender/inference_recommender_mixin.py].

    Python values are dynamically typed and the module branches on their
    truthiness throughout ([if not x], [a or b]), so scalars are kept in one
    value universe [pyval] together with Python's truth test.  Dictionaries
    are association lists in insertion order, which is the order [items()]
    and the wire format observe; a well-formed dictionary binds a key once. *)

From Stdlib Require Import String ZArith List Bool.
Import ListNotations.
Open Scope string_scope.

(** ** Python values *)

#[local] Set Warnings "-register-all".

Inductive pyval : Type :=
| PNone
| PBool (b : bool)
| PInt (n : Z)
| PStr (s : string)
| PList (items : list pyval)
| PDict (items : list (string * pyval))
| PObj (repr : string).
(* [PObj] is an instance of a class that defines neither [__bool__] nor
   [__len__] (a configuration object, a bound method): always true, and
   never equal to a string. *)

Definition dict (V : Type) : Type := list (string * V).

(** Python's truth test, [bool(v)]. *)
Definition truthy (v : pyval) : bool :=
  match v with
  | PNone => false
  | PBool b => b
  | PInt n => negb (n =? 0)%Z
  | PStr s => negb (s =? "")
  | PList items => match items with [] => false | _ :: _ => true end
  | PDict items => match items with [] => false | _ :: _ => true end
  | PObj _ => true
  end.

(** An argument that is either [None] or a Python list of objects. *)
Definition truthy_seq {A : Type} (xs : option (list A)) : bool :=
  match xs with
  | None => false
  | Some [] => false
  | Some (_ :: _) => true
  end.

(** ** Exceptions and results *)

Inductive exn : Type :=
| ValueError (msg : string)
| TypeError (msg : string)
| IndexError (msg : string)
| KeyError (key : string)
| AttributeError (msg : string)
| RemoteError (msg : string).

Inductive outcome (A : Type) : Type :=
| Return (a : A)
| Raise (e : exn).
Arguments Return {A} a.
Arguments Raise {A} e.

Definition obind {A B : Type} (m : outcome A) (k : A -> outcome B) : outcome B :=
  match m with
  | Return a => k a
  | Raise e => Raise e
  end.

Declare Scope outcome_scope.
Delimit Scope outcome_scope with outcome.
Notation "x <- m ;; k" := (obind m (fun x => k))
  (at level 61, m at next level, right associativity) : outcome_scope.
Notation "' pat <- m ;; k" := (obind m (fun x => match x with pat => k end))
  (at level 61, pat pattern, m at next level, right associativity) : outcome_scope.

(** A [for] statement whose body updates the loop's variables [acc] and may
    raise. *)
Fixpoint for_each {A S : Type} (body : S -> A -> outcome S) (xs : list A) (acc : S)
  : outcome S :=
  match xs with
  | [] => Return acc
  | x :: rest =>
      match body acc x with
      | Return acc' => for_each body rest acc'
      | Raise e => Raise e
      end
  end.

(** Iterating over an argument that may be [None]. *)
Definition iterate {A : Type} (xs : option (list A)) : outcome (list A) :=
  match xs with
  | Some l => Return l
  | None => Raise (TypeError "'NoneType' object is not iterable")
  end.

(** ** Dictionaries *)

Section Dict.
Context {V : Type}.

(** [d.get(key)], [None] being Rocq's [None]. *)
Fixpoint dict_get (key : string) (d : dict V) : option V :=
  match d with
  | [] => None
  | (k, v) :: rest => if k =? key then Some v else dict_get key rest
  end.

Definition dict_remove (key : string) (d : dict V) : dict V :=
  filter (fun kv => negb (fst kv =? key)) d.

(** [d.pop(key)]: the value and the dictionary without the key. *)
Definition dict_pop (key : string) (d : dict V) : outcome (V * dict V) :=
  match dict_get key d with
  | Some v => Return (v, dict_remove key d)
  | None => Raise (KeyError key)
  end.

(** [d[key] = v]: an existing key keeps its position, a new one goes last. *)
Fixpoint dict_set (key : string) (v : V) (d : dict V) : dict V :=
  match d with
  | [] => [(key, v)]
  | (k, w) :: rest =>
      if k =? key then (k, v) :: rest else (k, w) :: dict_set key v rest
  end.

Definition dict_has (key : string) (d : dict V) : bool :=
  match dict_get key d with Some _ => true | None => false end.
End Dict.

(** [d.get(key, default)] on a dictionary whose keys are strings.  A hashable
    key that is not a string equals none of them; a list or a dictionary is
    not hashable. *)
Definition dict_get_default {V : Type} (d : dict V) (key : pyval) (default : V)
  : outcome V :=
  match key with
  | PStr s => Return (match dict_get s d with Some v => v | None => default end)
  | PList _ => Raise (TypeError "unhashable type: 'list'")
  | PDict _ => Raise (TypeError "unhashable type: 'dict'")
  | _ => Return default
  end.

(** [v[key]] with a string key. *)
Definition getitem_str (v : pyval) (key : string) : outcome pyval :=
  match v with
  | PDict d =>
      match dict_get key d with
      | Some x => Return x
      | None => Raise (KeyError key)
      end
  | PList _ => Raise (TypeError "list indices must be integers or slices, not str")
  | PStr _ => Raise (TypeError "string indices must be integers")
  | _ => Raise (TypeError "object is not subscriptable")
  end.

(** [v[0]]. *)
Definition getitem_0 (v : pyval) : outcome pyval :=
  match v with
  | PList (x :: _) => Return x
  | PList [] => Raise (IndexError "list index out of range")
  | PStr (String c _) => Return (PStr (String c EmptyString))
  | PStr EmptyString => Raise (IndexError "string index out of range")
  | PDict _ => Raise (KeyError "0")
  | _ => Raise (TypeError "object is not subscriptable")
  end.

(** ** Module constants *)

Definition INFERENCE_RECOMMENDER_FRAMEWORK_MAPPING : dict pyval :=
  [ ("xgboost", PStr "XGBOOST");
    ("sklearn", PStr "SAGEMAKER-SCIKIT-LEARN");
    ("pytorch", PStr "PYTORCH");
    ("tensorflow", PStr "TENSORFLOW");
    ("mxnet", PStr "MXNET") ].

(** ** Value objects *)

Module Phase.
Record t : Type := { to_json : pyval }.

Definition init (duration_in_seconds initial_number_of_users spawn_rate : pyval) : t :=
  {| to_json := PDict [ ("DurationInSeconds", duration_in_seconds);
                        ("InitialNumberOfUsers", initial_number_of_users);
                        ("SpawnRate", spawn_rate) ] |}.
End Phase.

Module ModelLatencyThreshold.
Record t : Type := { to_json : pyval }.

Definition init (percentile value_in_milliseconds : pyval) : t :=
  {| to_json := PDict [ ("Percentile", percentile);
                        ("ValueInMilliseconds", value_in_milliseconds) ] |}.
End ModelLatencyThreshold.

(** Modelled from the spec: [sagemaker.parameter.CategoricalParameter] is
    imported by the module and is not among its sources.  It carries the list
    of candidate [values], and [as_json_range name] is the categorical range
    descriptor of the parameter under that name, with the candidates under
    the key [Values]. *)
Module CategoricalParameter.
Record t : Type := { values : list pyval }.

Definition as_json_range (p : t) (name : string) : dict pyval :=
  [ ("Name", PStr name); ("Values", PList (values p)) ].
End CategoricalParameter.

(** ** Parameter translators *)

Local Open Scope outcome_scope.

(** The body of [for name, param in parameter_range.items()]. *)
Definition append_parameter_range (parameter_ranges : list pyval)
    (item : string * CategoricalParameter.t) : outcome (list pyval) :=
  let '(name, param) := item in
  let as_json := CategoricalParameter.as_json_range param name in
  '(popped, as_json) <- dict_pop "Values" as_json ;;
  let as_json := dict_set "Value" popped as_json in
  Return (parameter_ranges ++ [PDict as_json])%list.

(** The body of [for instance_type in instance_types]. *)
Definition append_endpoint_configuration
    (parameter_range : dict CategoricalParameter.t)
    (endpoint_configurations_to_json : list pyval) (instance_type : pyval)
  : outcome (list pyval) :=
  parameter_ranges <- for_each append_parameter_range parameter_range [] ;;
  Return (endpoint_configurations_to_json ++
          [PDict [ ("EnvironmentParameterRanges",
                    PDict [ ("CategoricalParameterRanges", PList parameter_ranges) ]);
                   ("InstanceType", instance_type) ]])%list.

(** The body of [for parameter_range in hyperparameter_ranges].  The entry's
    values are [CategoricalParameter] objects, which are true, so
    [not parameter_range.get("instance_types")] holds exactly when the key is
    missing. *)
Definition append_parameter_range_entry (endpoint_configurations_to_json : list pyval)
    (parameter_range : dict CategoricalParameter.t) : outcome (list pyval) :=
  match dict_get "instance_types" parameter_range with
  | None => Raise (ValueError "instance_type must be defined as a hyperparameter_range")
  | Some p =>
      let instance_types := CategoricalParameter.values p in
      '(_, parameter_range) <- dict_pop "instance_types" parameter_range ;;
      for_each (append_endpoint_configuration parameter_range)
               instance_types endpoint_configurations_to_json
  end.

Definition _convert_to_endpoint_configurations_json
    (hyperparameter_ranges : option (list (dict CategoricalParameter.t)))
  : outcome pyval :=
  if negb (truthy_seq hyperparameter_ranges) then Return PNone
  else
    entries <- iterate hyperparameter_ranges ;;
    configurations <- for_each append_parameter_range_entry entries [] ;;
    Return (PList configurations).

Definition _convert_to_traffic_pattern_json (traffic_type : pyval)
    (phases : option (list Phase.t)) : outcome pyval :=
  if negb (truthy_seq phases) then Return PNone
  else
    phase_list <- iterate phases ;;
    Return (PDict [ ("Phases", PList (map Phase.to_json phase_list));
                    ("TrafficType",
                     if truthy traffic_type then traffic_type else PStr "PHASES") ]).

Definition _convert_to_resource_limit_json (max_tests max_parallel_tests : pyval)
  : pyval :=
  if negb (truthy max_tests) && negb (truthy max_parallel_tests) then PNone
  else PDict [ ("MaxNumberOfTests", max_tests);
               ("MaxParallelOfTests", max_parallel_tests) ].

Definition _convert_to_stopping_conditions_json (max_invocations : pyval)
    (model_latency_thresholds : option (list ModelLatencyThreshold.t))
  : outcome pyval :=
  if negb (truthy max_invocations) && negb (truthy_seq model_latency_thresholds)
  then Return PNone
  else
    thresholds <- iterate model_latency_thresholds ;;
    Return (PDict [ ("MaxInvocations", max_invocations);
                    ("ModelLatencyThresholds",
                     PList (map ModelLatencyThreshold.to_json thresholds)) ]).

(** ** The caller, the external session and the world *)

(** The request handed to the session's
    [create_inference_recommendations_job], one field per keyword. *)
Module JobRequest.
Record t : Type := {
  role : pyval;
  job_name : pyval;
  job_type : string;
  job_duration_in_seconds : pyval;
  model_package_version_arn : pyval;
  framework : pyval;
  framework_version : pyval;
  sample_payload_url : pyval;
  supported_content_types : pyval;
  supported_instance_types : pyval;
  endpoint_configurations : pyval;
  traffic_pattern : pyval;
  stopping_conditions : pyval;
  resource_limit : pyval
}.
End JobRequest.

(** The external session collaborator: what its two calls answer. *)
Record Session : Type := {
  create_inference_recommendations_job : JobRequest.t -> outcome pyval;
  wait_for_inference_recommendations_job : pyval -> pyval -> outcome pyval
}.

(** The object the mixin is mixed into.  [is_model_package] is
    [isinstance(self, sagemaker.model.ModelPackage)]. *)
Record Model : Type := {
  is_model_package : bool;
  detected_framework : pyval;
  declared_framework_version : pyval;
  role : pyval;
  model_package_arn : pyval;
  sagemaker_session : option Session;
  inference_recommender_job_results : pyval;
  inference_recommendations : pyval
}.

Definition with_session (s : Session) (self : Model) : Model :=
  {| is_model_package := is_model_package self;
     detected_framework := detected_framework self;
     declared_framework_version := declared_framework_version self;
     role := role self;
     model_package_arn := model_package_arn self;
     sagemaker_session := Some s;
     inference_recommender_job_results := inference_recommender_job_results self;
     inference_recommendations := inference_recommendations self |}.

Definition with_job_results (results : pyval) (self : Model) : Model :=
  {| is_model_package := is_model_package self;
     detected_framework := detected_framework self;
     declared_framework_version := declared_framework_version self;
     role := role self;
     model_package_arn := model_package_arn self;
     sagemaker_session := sagemaker_session self;
     inference_recommender_job_results := results;
     inference_recommendations := inference_recommendations self |}.

Definition with_recommendations (recommendations : pyval) (self : Model) : Model :=
  {| is_model_package := is_model_package self;
     detected_framework := detected_framework self;
     declared_framework_version := declared_framework_version self;
     role := role self;
     model_package_arn := model_package_arn self;
     sagemaker_session := sagemaker_session self;
     inference_recommender_job_results := inference_recommender_job_results self;
     inference_recommendations := recommendations |}.

(** What the outside observes, in order: log records and session calls. *)
Inductive event : Type :=
| Log (level : string) (message : string)
| CreateJob (request : JobRequest.t)
| WaitJob (job : pyval) (log_level : pyval).

Record World : Type := {
  self : Model;
  fresh_session : Session;
  trace : list event
}.

(** Actions: a result or an exception, and the world as the action left it. *)
Definition action (A : Type) : Type := World -> outcome A * World.

Definition ret {A : Type} (a : A) : action A := fun w => (Return a, w).
Definition raise {A : Type} (e : exn) : action A := fun w => (Raise e, w).
Definition lift {A : Type} (m : outcome A) : action A := fun w => (m, w).

Definition abind {A B : Type} (m : action A) (k : A -> action B) : action B :=
  fun w =>
    match m w with
    | (Return a, w') => k a w'
    | (Raise e, w') => (Raise e, w')
    end.

Declare Scope action_scope.
Delimit Scope action_scope with action.
Notation "x <- m ;; k" := (abind m (fun x => k))
  (at level 61, m at next level, right associativity) : action_scope.
Notation "m ;; k" := (abind m (fun _ => k))
  (at level 61, right associativity) : action_scope.

Definition get_self : action Model := fun w => (Return (self w), w).

Definition update_self (f : Model -> Model) : action unit :=
  fun w => (Return tt,
            {| self := f (self w); fresh_session := fresh_session w; trace := trace w |}).

Definition emit (e : event) : action unit :=
  fun w => (Return tt,
            {| self := self w; fresh_session := fresh_session w;
               trace := (trace w ++ [e])%list |}).

Definition LOGGER_info (message : string) : action unit := emit (Log "INFO" message).
Definition LOGGER_warning (message : string) : action unit := emit (Log "WARNING" message).

(** ** Methods of the caller's class that the mixin uses *)

(** Modelled from the spec: [_framework] is a method of the caller's class,
    outside this module; called, it gives the caller's detected framework
    label, or [None]. *)
Definition _framework_call (this : Model) : pyval := detected_framework this.

(** The attribute [self._framework] taken without calling it: the bound
    method object. *)
Definition _framework_attribute (this : Model) : pyval :=
  PObj "<bound method Model._framework>".

(** Modelled from the spec: [_get_framework_version], outside this module,
    reads the caller's framework version. *)
Definition _get_framework_version (this : Model) : pyval :=
  declared_framework_version this.

(** Modelled from the spec: [_init_sagemaker_session_if_does_not_exist],
    outside this module, makes sure a session object exists, creating one
    when the caller has none. *)
Definition _init_sagemaker_session_if_does_not_exist : action unit :=
  fun w =>
    match sagemaker_session (self w) with
    | Some _ => (Return tt, w)
    | None => update_self (with_session (fresh_session w)) w
    end.

(** [self.sagemaker_session], once it exists. *)
Definition the_session : action Session :=
  fun w =>
    match sagemaker_session (self w) with
    | Some s => (Return s, w)
    | None => (Raise (AttributeError "'NoneType' object has no attribute"), w)
    end.

(** [results.get(key)] *)
Definition method_get (v : pyval) (key : string) : outcome pyval :=
  match v with
  | PDict d => Return (match dict_get key d with Some x => x | None => PNone end)
  | _ => Raise (AttributeError "object has no attribute 'get'")
  end.

(** ** [right_size] *)

Module RightSize.
(** The keyword arguments of [right_size]. *)
Record args : Type := {
  sample_payload_url : pyval;
  supported_content_types : pyval;
  supported_instance_types : pyval;
  job_name : pyval;
  framework : pyval;
  job_duration_in_seconds : pyval;
  hyperparameter_ranges : option (list (dict CategoricalParameter.t));
  phases : option (list Phase.t);
  traffic_type : pyval;
  max_invocations : pyval;
  model_latency_thresholds : option (list ModelLatencyThreshold.t);
  max_tests : pyval;
  max_parallel_tests : pyval;
  log_level : pyval
}.

(** The declared defaults. *)
Definition defaults : args :=
  {| sample_payload_url := PNone;
     supported_content_types := PNone;
     supported_instance_types := PNone;
     job_name := PNone;
     framework := PNone;
     job_duration_in_seconds := PNone;
     hyperparameter_ranges := None;
     phases := None;
     traffic_type := PNone;
     max_invocations := PNone;
     model_latency_thresholds := None;
     max_tests := PNone;
     max_parallel_tests := PNone;
     log_level := PStr "Verbose" |}.
End RightSize.

Local Open Scope action_scope.

(** [a or b or c or d] used as a condition. *)
Definition any_truthy (a b c d : pyval) : bool :=
  truthy a || truthy b || truthy c || truthy d.

(** [right_size] returns [self]: the caller is the world's [self] once the
    action has run. *)
Definition right_size (a : RightSize.args) : action unit :=
  this <- get_self ;;
  if negb (is_model_package this)
  then raise (ValueError "right_size() is currently only supported with a registered model")
  else
    framework <-
      (if negb (truthy (RightSize.framework a)) && truthy (_framework_call this)
       then lift (dict_get_default INFERENCE_RECOMMENDER_FRAMEWORK_MAPPING
                                   (_framework_attribute this) (RightSize.framework a))
       else ret (RightSize.framework a)) ;;
    let framework_version := _get_framework_version this in
    endpoint_configurations <-
      lift (_convert_to_endpoint_configurations_json (RightSize.hyperparameter_ranges a)) ;;
    traffic_pattern <-
      lift (_convert_to_traffic_pattern_json (RightSize.traffic_type a) (RightSize.phases a)) ;;
    stopping_conditions <-
      lift (_convert_to_stopping_conditions_json (RightSize.max_invocations a)
              (RightSize.model_latency_thresholds a)) ;;
    let resource_limit :=
      _convert_to_resource_limit_json (RightSize.max_tests a) (RightSize.max_parallel_tests a) in
    job_type <-
      (if any_truthy endpoint_configurations traffic_pattern stopping_conditions resource_limit
       then LOGGER_info "Advance Job parameters were specified. Running Advanced job..." ;;
            ret "Advanced"
       else LOGGER_info "Advance Job parameters were not specified. Running Default job..." ;;
            ret "Default") ;;
    _init_sagemaker_session_if_does_not_exist ;;
    session <- the_session ;;
    let request :=
      {| JobRequest.role := role this;
         JobRequest.job_name := RightSize.job_name a;
         JobRequest.job_type := job_type;
         JobRequest.job_duration_in_seconds := RightSize.job_duration_in_seconds a;
         JobRequest.model_package_version_arn := model_package_arn this;
         JobRequest.framework := framework;
         JobRequest.framework_version := framework_version;
         JobRequest.sample_payload_url := RightSize.sample_payload_url a;
         JobRequest.supported_content_types := RightSize.supported_content_types a;
         JobRequest.supported_instance_types := RightSize.supported_instance_types a;
         JobRequest.endpoint_configurations := endpoint_configurations;
         JobRequest.traffic_pattern := traffic_pattern;
         JobRequest.stopping_conditions := stopping_conditions;
         JobRequest.resource_limit := resource_limit |} in
    emit (CreateJob request) ;;
    ret_name <- lift (create_inference_recommendations_job session request) ;;
    emit (WaitJob ret_name (RightSize.log_level a)) ;;
    results <- lift (wait_for_inference_recommendations_job session ret_name
                       (RightSize.log_level a)) ;;
    update_self (with_job_results results) ;;
    recommendations <- lift (method_get results "InferenceRecommendations") ;;
    update_self (with_recommendations recommendations).

(** ** [_check_inference_recommender_args]

    The result is [None] for Python's [None] and [Some (t, c)] for the tuple
    [(t, c)]. *)
Definition _check_inference_recommender_args
    (instance_type initial_instance_count accelerator_type
     serverless_inference_config async_inference_config : pyval)
  : action (option (pyval * pyval)) :=
  if truthy accelerator_type
  then raise (ValueError "accelerator_type is not compatible with right_size().")
  else if truthy instance_type || truthy initial_instance_count
  then LOGGER_warning
         "instance_type or initial_instance_count specified.Overriding right_size() recommendations." ;;
       ret None
  else if truthy async_inference_config
  then LOGGER_warning
         "async_inference_config is specified. Overriding right_size() recommendations." ;;
       ret None
  else if truthy serverless_inference_config
  then LOGGER_warning
         "serverless_inference_config is specified. Overriding right_size() recommendations." ;;
       ret None
  else
    this <- get_self ;;
    top <- lift (getitem_0 (inference_recommendations this)) ;;
    configuration <- lift (getitem_str top "EndpointConfiguration") ;;
    instance_type <- lift (getitem_str configuration "InstanceType") ;;
    top <- lift (getitem_0 (inference_recommendations this)) ;;
    configuration <- lift (getitem_str top "EndpointConfiguration") ;;
    initial_instance_count <- lift (getitem_str configuration "InitialInstanceCount") ;;
    ret (Some (instance_type, initial_instance_count)).

(** ** The translators as the specification words them

    These follow the specification's sentences, where "absent" is [None] and
    "supplied" is anything else; the theorems below compare them with the
    translators above. *)

Definition supplied (v : pyval) : bool :=
  match v with PNone => false | _ => true end.

Definition supplied_seq {A : Type} (xs : option (list A)) : bool :=
  match xs with None => false | Some _ => true end.

Definition elements {A : Type} (xs : option (list A)) : list A :=
  match xs with Some l => l | None => [] end.

(** "Returns null if no phases given; otherwise {Phases, TrafficType}", the
    traffic type being the given one if one was supplied and "PHASES"
    otherwise. *)
Definition traffic_pattern_as_specified (traffic_type : pyval)
    (phases : option (list Phase.t)) : outcome pyval :=
  match elements phases with
  | [] => Return PNone
  | phase_list =>
      Return (PDict [ ("Phases", PList (map Phase.to_json phase_list));
                      ("TrafficType",
                       if supplied traffic_type then traffic_type else PStr "PHASES") ])
  end.

(** "Returns null if both absent; otherwise {MaxInvocations,
    ModelLatencyThresholds}". *)
Definition stopping_conditions_as_specified (max_invocations : pyval)
    (model_latency_thresholds : option (list ModelLatencyThreshold.t)) : outcome pyval :=
  if negb (supplied max_invocations) && negb (supplied_seq model_latency_thresholds)
  then Return PNone
  else Return (PDict [ ("MaxInvocations", max_invocations);
                       ("ModelLatencyThresholds",
                        PList (map ModelLatencyThreshold.to_json
                                   (elements model_latency_thresholds))) ]).

(** An integer argument other than zero. *)
Definition nonzero (v : pyval) : Prop := exists n : Z, v = PInt n /\ n <> 0%Z.

(** The endpoint configurations of an input whose entries all have
    [instance_types]: per entry, one document per candidate instance type,
    each with one descriptor per remaining key. *)
Definition range_descriptor (item : string * CategoricalParameter.t) : pyval :=
  PDict [ ("Name", PStr (fst item));
          ("Value", PList (CategoricalParameter.values (snd item))) ].

Definition remaining_ranges (entry : dict CategoricalParameter.t)
  : dict CategoricalParameter.t :=
  dict_remove "instance_types" entry.

Definition candidate_instance_types (entry : dict CategoricalParameter.t) : list pyval :=
  match dict_get "instance_types" entry with
  | Some p => CategoricalParameter.values p
  | None => []
  end.

Definition configuration_document (entry : dict CategoricalParameter.t)
    (instance_type : pyval) : pyval :=
  PDict [ ("EnvironmentParameterRanges",
           PDict [ ("CategoricalParameterRanges",
                    PList (map range_descriptor (remaining_ranges entry))) ]);
          ("InstanceType", instance_type) ].

Definition expected_configurations (entries : list (dict CategoricalParameter.t))
  : list pyval :=
  flat_map (fun entry => map (configuration_document entry)
                             (candidate_instance_types entry)) entries.

(** The range list of a configuration document. *)
Definition range_list_of (document : pyval) : option (list pyval) :=
  match document with
  | PDict (("EnvironmentParameterRanges",
            PDict (("CategoricalParameterRanges", PList ranges) :: _)) :: _) =>
      Some ranges
  | _ => None
  end.

Definition keys {V : Type} (d : dict V) : list string := map fst d.

(** "Job type is Advanced iff any translator returned non-null, else
    Default". *)
Definition job_type_as_specified
    (endpoint_configurations traffic_pattern stopping_conditions resource_limit : pyval)
  : string :=
  if supplied endpoint_configurations || supplied traffic_pattern
     || supplied stopping_conditions || supplied resource_limit
  then "Advanced" else "Default".

(** The guard's rules, "checked in order", each argument counting as given
    when it is not [None]. *)
Definition guard_as_specified (recommendations : pyval)
    (instance_type initial_instance_count accelerator_type
     serverless_inference_config async_inference_config : pyval)
  : outcome (option (pyval * pyval)) :=
  if supplied accelerator_type
  then Raise (ValueError "accelerator_type is not compatible with right_size().")
  else if supplied instance_type || supplied initial_instance_count then Return None
  else if supplied async_inference_config then Return None
  else if supplied serverless_inference_config then Return None
  else
    obind (getitem_0 recommendations) (fun top =>
    obind (getitem_str top "EndpointConfiguration") (fun configuration =>
    obind (getitem_str configuration "InstanceType") (fun instance_type =>
    obind (getitem_str configuration "InitialInstanceCount") (fun initial_instance_count =>
    Return (Some (instance_type, initial_instance_count)))))).

(** ** Observations on a run *)

(** The requests handed to the session, oldest first. *)
Fixpoint submitted_requests (events : list event) : list JobRequest.t :=
  match events with
  | [] => []
  | CreateJob request :: rest => request :: submitted_requests rest
  | _ :: rest => submitted_requests rest
  end.

(** The world in which an action ends, and what it gives back. *)
Definition world_after {A : Type} (m : action A) (w : World) : World := snd (m w).
Definition result_of {A : Type} (m : action A) (w : World) : outcome A := fst (m w).

(** ** Sample inputs *)

Definition top_recommendation : pyval :=
  PDict [ ("EndpointConfiguration",
           PDict [ ("InstanceType", PStr "ml.c5.xlarge");
                   ("InitialInstanceCount", PInt 2) ]) ].

Definition sample_session : Session :=
  {| create_inference_recommendations_job := fun _ => Return (PStr "job-1");
     wait_for_inference_recommendations_job := fun _ _ =>
       Return (PDict [ ("Status", PStr "COMPLETED");
                       ("InferenceRecommendations", PList [top_recommendation]) ]) |}.

(** A registered model whose detected framework is PyTorch, before any
    [right_size]. *)
Definition pytorch_model_package : Model :=
  {| is_model_package := true;
     detected_framework := PStr "pytorch";
     declared_framework_version := PStr "1.12";
     role := PStr "arn:aws:iam::111122223333:role/sagemaker";
     model_package_arn := PStr "arn:aws:sagemaker:us-west-2:111122223333:model-package/m/1";
     sagemaker_session := None;
     inference_recommender_job_results := PNone;
     inference_recommendations := PNone |}.

(** The same model, not registered. *)
Definition unregistered_model : Model :=
  {| is_model_package := false;
     detected_framework := PStr "pytorch";
     declared_framework_version := PStr "1.12";
     role := PStr "arn:aws:iam::111122223333:role/sagemaker";
     model_package_arn := PNone;
     sagemaker_session := None;
     inference_recommender_job_results := PNone;
     inference_recommendations := PNone |}.

Definition world_of (this : Model) : World :=
  {| self := this; fresh_session := sample_session; trace := [] |}.

(** A model that has been through [right_size]. *)
Definition right_sized_model : Model :=
  with_recommendations (PList [top_recommendation]) pytorch_model_package.

(** The docstring's hyperparameter range. *)
Definition sample_parameter_range : dict CategoricalParameter.t :=
  [ ("instance_types",
     {| CategoricalParameter.values := [PStr "ml.c5.xlarge"; PStr "ml.c5.2xlarge"] |});
    ("OMP_NUM_THREADS",
     {| CategoricalParameter.values := [PStr "1"; PStr "2"; PStr "3"; PStr "4"] |}) ].

Definition parameter_range_without_instance_types : dict CategoricalParameter.t :=
  [ ("OMP_NUM_THREADS",
     {| CategoricalParameter.values := [PStr "1"; PStr "2"] |}) ].

(** A range whose [instance_types] parameter has no candidate. *)
Definition parameter_range_without_candidates : dict CategoricalParameter.t :=
  [ ("instance_types", {| CategoricalParameter.values := [] |}) ].

Definition with_hyperparameter_ranges
    (ranges : option (list (dict CategoricalParameter.t))) (a : RightSize.args)
  : RightSize.args :=
  {| RightSize.sample_payload_url := RightSize.sample_payload_url a;
     RightSize.supported_content_types := RightSize.supported_content_types a;
     RightSize.supported_instance_types := RightSize.supported_instance_types a;
     RightSize.job_name := RightSize.job_name a;
     RightSize.framework := RightSize.framework a;
     RightSize.job_duration_in_seconds := RightSize.job_duration_in_seconds a;
     RightSize.hyperparameter_ranges := ranges;
     RightSize.phases := RightSize.phases a;
     RightSize.traffic_type := RightSize.traffic_type a;
     RightSize.max_invocations := RightSize.max_invocations a;
     RightSize.model_latency_thresholds := RightSize.model_latency_thresholds a;
     RightSize.max_tests := RightSize.max_tests a;
     RightSize.max_parallel_tests := RightSize.max_parallel_tests a;
     RightSize.log_level := RightSize.log_level a |}.

Definition sample_phase : Phase.t := Phase.init (PInt 120) (PInt 1) (PInt 1).

Definition sample_threshold : ModelLatencyThreshold.t :=
  ModelLatencyThreshold.init (PStr "P95") (PInt 100).

(** [right_size(hyperparameter_ranges=[{'instance_types':
    CategoricalParameter([])}])]. *)
Definition args_without_candidates : RightSize.args :=
  with_hyperparameter_ranges (Some [parameter_range_without_candidates]) RightSize.defaults.

(** ** The pieces of a run of [right_size] *)

(** The session [right_size] talks to: the caller's own, or the one created
    for a caller that has none. *)
Definition active_session (w : World) : Session :=
  match sagemaker_session (self w) with
  | Some session => session
  | None => fresh_session w
  end.

(** The caller once [right_size] has made sure it has a session. *)
Definition ensure_session (w : World) : Model :=
  match sagemaker_session (self w) with
  | Some _ => self w
  | None => with_session (fresh_session w) (self w)
  end.

Definition job_type_of (fragment1 fragment2 fragment3 fragment4 : pyval) : string :=
  if any_truthy fragment1 fragment2 fragment3 fragment4 then "Advanced" else "Default".

Definition job_type_message (fragment1 fragment2 fragment3 fragment4 : pyval) : string :=
  if any_truthy fragment1 fragment2 fragment3 fragment4
  then "Advance Job parameters were specified. Running Advanced job..."
  else "Advance Job parameters were not specified. Running Default job...".

(** The request of a call whose translators returned [e], [t] and [s]. *)
Definition job_request (this : Model) (a : RightSize.args) (e t s : pyval) : JobRequest.t :=
  let r := _convert_to_resource_limit_json (RightSize.max_tests a)
             (RightSize.max_parallel_tests a) in
  {| JobRequest.role := role this;
     JobRequest.job_name := RightSize.job_name a;
     JobRequest.job_type := job_type_of e t s r;
     JobRequest.job_duration_in_seconds := RightSize.job_duration_in_seconds a;
     JobRequest.model_package_version_arn := model_package_arn this;
     JobRequest.framework := RightSize.framework a;
     JobRequest.framework_version := _get_framework_version this;
     JobRequest.sample_payload_url := RightSize.sample_payload_url a;
     JobRequest.supported_content_types := RightSize.supported_content_types a;
     JobRequest.supported_instance_types := RightSize.supported_instance_types a;
     JobRequest.endpoint_configurations := e;
     JobRequest.traffic_pattern := t;
     JobRequest.stopping_conditions := s;
     JobRequest.resource_limit := r |}.

(** A log record of level WARNING. *)
Definition is_warning (e : event) : Prop :=
  match e with Log "WARNING" _ => True | _ => False end.


(** ** More sample inputs *)

(** [right_size(max_invocations=10)]. *)
Definition args_max_invocations_only : RightSize.args :=
  {| RightSize.sample_payload_url := PNone;
     RightSize.supported_content_types := PNone;
     RightSize.supported_instance_types := PNone;
     RightSize.job_name := PNone;
     RightSize.framework := PNone;
     RightSize.job_duration_in_seconds := PNone;
     RightSize.hyperparameter_ranges := None;
     RightSize.phases := None;
     RightSize.traffic_type := PNone;
     RightSize.max_invocations := PInt 10;
     RightSize.model_latency_thresholds := None;
     RightSize.max_tests := PNone;
     RightSize.max_parallel_tests := PNone;
     RightSize.log_level := PStr "Verbose" |}.

(** [right_size(framework="XGBOOST", phases=[Phase(120, 1, 1)], max_tests=5)]. *)
Definition args_with_phases : RightSize.args :=
  {| RightSize.sample_payload_url := PStr "s3://bucket/payload.tar.gz";
     RightSize.supported_content_types := PList [PStr "text/csv"];
     RightSize.supported_instance_types := PNone;
     RightSize.job_name := PStr "right-size-1";
     RightSize.framework := PStr "XGBOOST";
     RightSize.job_duration_in_seconds := PInt 7200;
     RightSize.hyperparameter_ranges := None;
     RightSize.phases := Some [sample_phase];
     RightSize.traffic_type := PNone;
     RightSize.max_invocations := PNone;
     RightSize.model_latency_thresholds := None;
     RightSize.max_tests := PInt 5;
     RightSize.max_parallel_tests := PNone;
     RightSize.log_level := PStr "Quiet" |}.

Definition world_with (session : Session) (this : Model) : World :=
  {| self := this; fresh_session := session; trace := [] |}.

(** A session whose job creation is refused. *)
Definition refusing_session : Session :=
  {| create_inference_recommendations_job := fun _ =>
       Raise (RemoteError "ValidationException");
     wait_for_inference_recommendations_job := fun _ _ => Return (PDict []) |}.

(** A session whose job is created and then fails while awaited. *)
Definition timing_out_session : Session :=
  {| create_inference_recommendations_job := fun _ => Return (PStr "job-1");
     wait_for_inference_recommendations_job := fun _ _ =>
       Raise (RemoteError "Inference Recommendations Job failed") |}.

(** A session whose result carries no "InferenceRecommendations". *)
Definition session_without_recommendations : Session :=
  {| create_inference_recommendations_job := fun _ => Return (PStr "job-1");
     wait_for_inference_recommendations_job := fun _ _ =>
       Return (PDict [ ("Status", PStr "COMPLETED") ]) |}.

(** ** Lemmas on loops and dictionaries *)

(** A loop whose body always appends [f x] appends [map f xs]. *)
Lemma for_each_appending {A B : Type} (body : list B -> A -> outcome (list B))
    (f : A -> list B) (xs : list A) :
  (forall acc x, In x xs -> body acc x = Return (acc ++ f x)%list) ->
  forall acc, for_each body xs acc = Return (acc ++ flat_map f xs)%list.
Proof.
  induction xs as [|x xs IH]; intros Hbody acc; simpl.
  - now rewrite app_nil_r.
  - rewrite Hbody by now left.
    rewrite IH by (intros; apply Hbody; now right).
    now rewrite app_assoc.
Qed.

Lemma flat_map_singleton {A B : Type} (f : A -> B) (xs : list A) :
  flat_map (fun x => [f x]) xs = map f xs.
Proof. induction xs as [|x xs IH]; simpl; congruence. Qed.

Lemma dict_has_true {V : Type} (key : string) (d : dict V) :
  dict_has key d = true -> exists v, dict_get key d = Some v.
Proof.
  unfold dict_has. destruct (dict_get key d) as [v|]; [eauto | discriminate].
Qed.

Lemma dict_has_false {V : Type} (key : string) (d : dict V) :
  dict_has key d = false -> dict_get key d = None.
Proof.
  unfold dict_has. destruct (dict_get key d); [discriminate | reflexivity].
Qed.

Lemma dict_get_remove {V : Type} (key : string) (d : dict V) :
  dict_get key (dict_remove key d) = None.
Proof.
  induction d as [|[k v] d IH]; simpl; [reflexivity|].
  destruct (k =? key) eqn:E; simpl; [exact IH | now rewrite E].
Qed.

Lemma dict_remove_absent {V : Type} (key : string) (d : dict V) :
  ~ In key (keys d) -> dict_remove key d = d.
Proof.
  induction d as [|[k v] d IH]; simpl; intros Hn; [reflexivity|].
  destruct (String.eqb_spec k key) as [->|Hne]; simpl.
  - exfalso. apply Hn. now left.
  - f_equal. apply IH. intros Hin. apply Hn. now right.
Qed.

(** In a well-formed dictionary, popping a key that is there leaves one
    binding fewer. *)
Lemma dict_remove_length {V : Type} (key : string) (d : dict V) :
  NoDup (keys d) -> dict_has key d = true ->
  S (length (dict_remove key d)) = length d.
Proof.
  induction d as [|[k v] d IH]; simpl; intros Hnd Hhas.
  - discriminate.
  - inversion Hnd as [|? ? Hnotin Hnd']; subst.
    unfold dict_has in Hhas. simpl in Hhas.
    destruct (String.eqb_spec k key) as [->|Hne]; simpl.
    + f_equal. fold (dict_remove key d). now rewrite dict_remove_absent.
    + f_equal. apply IH; assumption.
Qed.

(** ** The endpoint-configuration translator *)

Lemma append_parameter_range_appends (parameter_ranges : list pyval)
    (item : string * CategoricalParameter.t) :
  append_parameter_range parameter_ranges item =
  Return (parameter_ranges ++ [range_descriptor item])%list.
Proof. destruct item as [name param]. reflexivity. Qed.

Lemma parameter_ranges_loop (parameter_range : dict CategoricalParameter.t) :
  for_each append_parameter_range parameter_range [] =
  Return (map range_descriptor parameter_range).
Proof.
  rewrite (for_each_appending append_parameter_range (fun item => [range_descriptor item])).
  - simpl. now rewrite flat_map_singleton.
  - intros acc x _. apply append_parameter_range_appends.
Qed.

Lemma instance_types_loop (entry : dict CategoricalParameter.t)
    (instance_types acc : list pyval) :
  for_each (append_endpoint_configuration (remaining_ranges entry)) instance_types acc =
  Return (acc ++ map (configuration_document entry) instance_types)%list.
Proof.
  rewrite (for_each_appending _ (fun ty => [configuration_document entry ty])).
  - now rewrite flat_map_singleton.
  - intros acc' ty _. unfold append_endpoint_configuration.
    rewrite parameter_ranges_loop. reflexivity.
Qed.

(** An entry that has [instance_types] adds its documents and does not
    raise. *)
Lemma entry_with_instance_types (acc : list pyval) (entry : dict CategoricalParameter.t) :
  dict_has "instance_types" entry = true ->
  append_parameter_range_entry acc entry =
  Return (acc ++ map (configuration_document entry) (candidate_instance_types entry))%list.
Proof.
  intros Hhas. destruct (dict_has_true _ _ Hhas) as [p Hp].
  unfold append_parameter_range_entry, candidate_instance_types, dict_pop.
  rewrite Hp. simpl. apply instance_types_loop.
Qed.

(** An entry without [instance_types] raises the usage error. *)
Lemma entry_without_instance_types (acc : list pyval) (entry : dict CategoricalParameter.t) :
  dict_has "instance_types" entry = false ->
  append_parameter_range_entry acc entry =
  Raise (ValueError "instance_type must be defined as a hyperparameter_range").
Proof.
  intros Hhas. unfold append_parameter_range_entry.
  now rewrite (dict_has_false _ _ Hhas).
Qed.

Lemma entries_loop (entries : list (dict CategoricalParameter.t)) (acc : list pyval) :
  Forall (fun entry => dict_has "instance_types" entry = true) entries ->
  for_each append_parameter_range_entry entries acc =
  Return (acc ++ expected_configurations entries)%list.
Proof.
  intros Hall. unfold expected_configurations.
  apply for_each_appending. intros acc' entry Hin.
  apply entry_with_instance_types.
  rewrite Forall_forall in Hall. now apply Hall.
Qed.

Lemma entries_loop_raises (entries : list (dict CategoricalParameter.t)) :
  Exists (fun entry => dict_has "instance_types" entry = false) entries ->
  forall acc,
    for_each append_parameter_range_entry entries acc =
    Raise (ValueError "instance_type must be defined as a hyperparameter_range").
Proof.
  induction entries as [|entry entries IH]; intros Hex acc.
  - inversion Hex.
  - simpl. destruct (dict_has "instance_types" entry) eqn:Hhas.
    + rewrite entry_with_instance_types by assumption.
      apply IH. inversion Hex as [? ? Hhere|]; subst; [congruence | assumption].
    + now rewrite entry_without_instance_types.
Qed.

Lemma expected_configurations_length (entries : list (dict CategoricalParameter.t)) :
  length (expected_configurations entries) =
  list_sum (map (fun entry => length (candidate_instance_types entry)) entries).
Proof.
  unfold expected_configurations.
  induction entries as [|entry entries IH]; simpl; [reflexivity|].
  now rewrite length_app, length_map, IH.
Qed.

(** C5. For a non-empty input whose entries all contain [instance_types], the
    endpoint-configuration translator returns, entry by entry and candidate
    instance type by candidate instance type, exactly one document
    {EnvironmentParameterRanges: {CategoricalParameterRanges: [...]},
    InstanceType: type}; the range list of each has exactly one {Name, Value}
    descriptor per remaining key of its entry (one fewer than the entry has
    keys); for an empty or absent input it returns null. *)
Theorem endpoint_configurations_json_spec :
  _convert_to_endpoint_configurations_json None = Return PNone /\
  _convert_to_endpoint_configurations_json (Some []) = Return PNone /\
  forall entries : list (dict CategoricalParameter.t),
    entries <> [] ->
    Forall (fun entry => dict_has "instance_types" entry = true) entries ->
    _convert_to_endpoint_configurations_json (Some entries) =
      Return (PList (expected_configurations entries)) /\
    length (expected_configurations entries) =
      list_sum (map (fun entry => length (candidate_instance_types entry)) entries) /\
    forall entry, In entry entries ->
      forall instance_type, In instance_type (candidate_instance_types entry) ->
        In (configuration_document entry instance_type) (expected_configurations entries) /\
        range_list_of (configuration_document entry instance_type) =
          Some (map range_descriptor (remaining_ranges entry)) /\
        length (map range_descriptor (remaining_ranges entry)) =
          length (remaining_ranges entry) /\
        dict_has "instance_types" (remaining_ranges entry) = false /\
        (NoDup (keys entry) -> S (length (remaining_ranges entry)) = length entry).
Proof.
  split; [reflexivity|]. split; [reflexivity|].
  intros entries Hne Hall. split; [|split].
  - destruct entries as [|entry entries]; [congruence|].
    unfold _convert_to_endpoint_configurations_json.
    cbn [truthy_seq negb iterate obind].
    now rewrite entries_loop.
  - apply expected_configurations_length.
  - intros entry Hin ty Hty. repeat split.
    + unfold expected_configurations. apply in_flat_map.
      exists entry. split; [assumption|]. now apply in_map.
    + apply length_map.
    + unfold dict_has, remaining_ranges. now rewrite dict_get_remove.
    + intros Hnd. apply dict_remove_length; [assumption|].
      rewrite Forall_forall in Hall. now apply Hall.
Qed.

(** C6. For every non-empty input with at least one entry that lacks the
    [instance_types] key, the endpoint-configuration translator raises the
    usage error [ValueError] and returns no fragment. *)
Theorem endpoint_configurations_json_missing_instance_types :
  forall entries : list (dict CategoricalParameter.t),
    Exists (fun entry => dict_has "instance_types" entry = false) entries ->
    _convert_to_endpoint_configurations_json (Some entries) =
      Raise (ValueError "instance_type must be defined as a hyperparameter_range").
Proof.
  intros entries Hex.
  destruct entries as [|entry entries]; [inversion Hex|].
  unfold _convert_to_endpoint_configurations_json.
  cbn [truthy_seq negb iterate obind].
  now rewrite entries_loop_raises.
Qed.

(** ** The resource-limit translator *)

Lemma nonzero_truthy (v : pyval) : nonzero v -> truthy v = true.
Proof.
  intros (n & -> & Hn). simpl. destruct (Z.eqb_spec n 0); [contradiction | reflexivity].
Qed.

Lemma resource_limit_json_truthy (max_tests max_parallel_tests : pyval) :
  truthy max_tests = true \/ truthy max_parallel_tests = true ->
  _convert_to_resource_limit_json max_tests max_parallel_tests =
  PDict [ ("MaxNumberOfTests", max_tests); ("MaxParallelOfTests", max_parallel_tests) ].
Proof.
  unfold _convert_to_resource_limit_json.
  intros [H|H]; rewrite H; simpl; [reflexivity|].
  now rewrite andb_false_r.
Qed.

(** C10. The resource-limit translator tells present from absent by
    truthiness: for [max_tests = 0] and [max_parallel_tests = 0] it returns
    null, exactly as when both are [None]; whenever at least one argument is
    nonzero it returns {MaxNumberOfTests: max_tests, MaxParallelOfTests:
    max_parallel_tests}, an absent member being kept as null inside the
    mapping. *)
Theorem resource_limit_json_by_truthiness :
  _convert_to_resource_limit_json (PInt 0) (PInt 0) = PNone /\
  _convert_to_resource_limit_json (PInt 0) (PInt 0) =
    _convert_to_resource_limit_json PNone PNone /\
  (forall max_tests max_parallel_tests : pyval,
     nonzero max_tests \/ nonzero max_parallel_tests ->
     _convert_to_resource_limit_json max_tests max_parallel_tests =
       PDict [ ("MaxNumberOfTests", max_tests);
               ("MaxParallelOfTests", max_parallel_tests) ]) /\
  (forall n : Z, n <> 0%Z ->
     _convert_to_resource_limit_json (PInt n) PNone =
       PDict [ ("MaxNumberOfTests", PInt n); ("MaxParallelOfTests", PNone) ] /\
     _convert_to_resource_limit_json PNone (PInt n) =
       PDict [ ("MaxNumberOfTests", PNone); ("MaxParallelOfTests", PInt n) ]).
Proof.
  split; [reflexivity|]. split; [reflexivity|]. split.
  - intros a b H. apply resource_limit_json_truthy.
    destruct H as [H|H]; [left | right]; now apply nonzero_truthy.
  - intros n Hn.
    assert (Ht : truthy (PInt n) = true) by (apply nonzero_truthy; now exists n).
    split; apply resource_limit_json_truthy; [now left | now right].
Qed.

(** ** The traffic-pattern translator *)

Lemma phase_wire_form (duration_in_seconds initial_number_of_users spawn_rate : pyval) :
  Phase.to_json (Phase.init duration_in_seconds initial_number_of_users spawn_rate) =
  PDict [ ("DurationInSeconds", duration_in_seconds);
          ("InitialNumberOfUsers", initial_number_of_users);
          ("SpawnRate", spawn_rate) ].
Proof. reflexivity. Qed.

(** C7, as amended. The traffic-pattern translator returns null when the
    phases are absent or empty; otherwise it returns {Phases: [each phase's
    wire form], TrafficType}, where TrafficType is the given traffic type if
    that is true in Python's sense (supplied and not the empty string) and
    the constant "PHASES" otherwise. *)
Theorem traffic_pattern_json_spec :
  forall (traffic_type : pyval) (phases : option (list Phase.t)),
    (phases = None \/ phases = Some [] ->
     _convert_to_traffic_pattern_json traffic_type phases = Return PNone) /\
    (forall phase_list, phases = Some phase_list -> phase_list <> [] ->
       (truthy traffic_type = true ->
        _convert_to_traffic_pattern_json traffic_type phases =
          Return (PDict [ ("Phases", PList (map Phase.to_json phase_list));
                          ("TrafficType", traffic_type) ])) /\
       (truthy traffic_type = false ->
        _convert_to_traffic_pattern_json traffic_type phases =
          Return (PDict [ ("Phases", PList (map Phase.to_json phase_list));
                          ("TrafficType", PStr "PHASES") ]))).
Proof.
  intros traffic_type phases. split.
  - intros [->| ->]; reflexivity.
  - intros phase_list -> Hne.
    destruct phase_list as [|phase rest]; [congruence|].
    unfold _convert_to_traffic_pattern_json.
    cbn [truthy_seq negb iterate obind].
    split; intros ->; reflexivity.
Qed.

(** ** The stopping-conditions translator *)

Lemma threshold_wire_forms (specs : list (pyval * pyval)) :
  map ModelLatencyThreshold.to_json
      (map (fun pv => ModelLatencyThreshold.init (fst pv) (snd pv)) specs) =
  map (fun pv => PDict [ ("Percentile", fst pv); ("ValueInMilliseconds", snd pv) ]) specs.
Proof. rewrite map_map. reflexivity. Qed.

(** C3, as amended. The stopping-conditions translator returns null when both
    [max_invocations] and [model_latency_thresholds] are false in Python's
    sense (absent, zero, empty); when [model_latency_thresholds] is a
    sequence and at least one of the two is true, it returns {MaxInvocations:
    max_invocations, ModelLatencyThresholds: [...]} with each threshold
    serialized to {Percentile, ValueInMilliseconds}. *)
Theorem stopping_conditions_json_spec :
  forall (max_invocations : pyval)
         (model_latency_thresholds : option (list ModelLatencyThreshold.t)),
    (truthy max_invocations = false -> truthy_seq model_latency_thresholds = false ->
     _convert_to_stopping_conditions_json max_invocations model_latency_thresholds =
       Return PNone) /\
    (forall thresholds, model_latency_thresholds = Some thresholds ->
       truthy max_invocations = true \/ thresholds <> [] ->
       _convert_to_stopping_conditions_json max_invocations model_latency_thresholds =
         Return (PDict [ ("MaxInvocations", max_invocations);
                         ("ModelLatencyThresholds",
                          PList (map ModelLatencyThreshold.to_json thresholds)) ])) /\
    (forall specs : list (pyval * pyval),
       model_latency_thresholds =
         Some (map (fun pv => ModelLatencyThreshold.init (fst pv) (snd pv)) specs) ->
       truthy max_invocations = true \/ specs <> [] ->
       _convert_to_stopping_conditions_json max_invocations model_latency_thresholds =
         Return (PDict [ ("MaxInvocations", max_invocations);
                         ("ModelLatencyThresholds",
                          PList (map (fun pv => PDict [ ("Percentile", fst pv);
                                                        ("ValueInMilliseconds", snd pv) ])
                                     specs)) ])).
Proof.
  intros max_invocations model_latency_thresholds.
  assert (Hsome : forall thresholds, model_latency_thresholds = Some thresholds ->
            truthy max_invocations = true \/ thresholds <> [] ->
            _convert_to_stopping_conditions_json max_invocations model_latency_thresholds =
            Return (PDict [ ("MaxInvocations", max_invocations);
                            ("ModelLatencyThresholds",
                             PList (map ModelLatencyThreshold.to_json thresholds)) ])).
  { intros thresholds -> H. unfold _convert_to_stopping_conditions_json.
    destruct H as [H|H].
    - rewrite H. reflexivity.
    - destruct thresholds as [|t rest]; [congruence|].
      cbn [truthy_seq negb]. now rewrite andb_false_r. }
  split; [|split].
  - intros H1 H2. unfold _convert_to_stopping_conditions_json. now rewrite H1, H2.
  - exact Hsome.
  - intros specs Hspecs H. rewrite (Hsome _ Hspecs).
    + now rewrite threshold_wire_forms.
    + destruct H as [H|H]; [now left | right].
      destruct specs; [congruence | discriminate].
Qed.

(** Left out of the statement above: a true [max_invocations] with
    [model_latency_thresholds] left at [None].  The translator passes its
    guard and then iterates over [None]. *)
Lemma stopping_conditions_json_thresholds_none (max_invocations : pyval) :
  truthy max_invocations = true ->
  _convert_to_stopping_conditions_json max_invocations None =
  Raise (TypeError "'NoneType' object is not iterable").
Proof.
  intros H. unfold _convert_to_stopping_conditions_json. now rewrite H.
Qed.

(** ** [right_size] *)

Lemma submitted_requests_app (xs ys : list event) :
  submitted_requests (xs ++ ys) = (submitted_requests xs ++ submitted_requests ys)%list.
Proof.
  induction xs as [|[level message|request|job log_level] xs IH]; simpl; congruence.
Qed.

(** A run of [right_size] on a registered model whose translators return:
    one log record, then the request, whatever the session answers. *)
Lemma right_size_run (a : RightSize.args) (w : World) (e t s : pyval) :
  is_model_package (self w) = true ->
  _convert_to_endpoint_configurations_json (RightSize.hyperparameter_ranges a) = Return e ->
  _convert_to_traffic_pattern_json (RightSize.traffic_type a) (RightSize.phases a) = Return t ->
  _convert_to_stopping_conditions_json (RightSize.max_invocations a)
    (RightSize.model_latency_thresholds a) = Return s ->
  exists (message : string) (request : JobRequest.t) (rest : list event),
    trace (world_after (right_size a) w) =
      (trace w ++ Log "INFO" message :: CreateJob request :: rest)%list /\
    submitted_requests rest = [] /\
    JobRequest.job_type request =
      (if any_truthy e t s (_convert_to_resource_limit_json (RightSize.max_tests a)
                              (RightSize.max_parallel_tests a))
       then "Advanced" else "Default") /\
    JobRequest.framework request = RightSize.framework a /\
    JobRequest.endpoint_configurations request = e /\
    JobRequest.traffic_pattern request = t /\
    JobRequest.stopping_conditions request = s /\
    JobRequest.resource_limit request =
      _convert_to_resource_limit_json (RightSize.max_tests a) (RightSize.max_parallel_tests a).
Proof.
  intros Hreg He Ht Hs.
  unfold world_after, right_size, abind at 1, get_self.
  rewrite Hreg. cbn [negb].
  assert (Hfw : (if negb (truthy (RightSize.framework a)) && truthy (_framework_call (self w))
                 then lift (dict_get_default INFERENCE_RECOMMENDER_FRAMEWORK_MAPPING
                              (_framework_attribute (self w)) (RightSize.framework a))
                 else ret (RightSize.framework a)) = ret (RightSize.framework a)).
  { destruct (negb (truthy (RightSize.framework a)) && truthy (_framework_call (self w)));
      reflexivity. }
  rewrite Hfw, He, Ht, Hs. clear Hfw.
  set (r := _convert_to_resource_limit_json (RightSize.max_tests a)
              (RightSize.max_parallel_tests a)).
  unfold abind, ret, lift, LOGGER_info, emit, _init_sagemaker_session_if_does_not_exist,
    the_session, update_self.
  cbn [fst snd self trace fresh_session].
  destruct (any_truthy e t s r);
    cbn [fst snd self trace fresh_session];
    (destruct (sagemaker_session (self w)) as [session|] eqn:Hsession;
     cbn [fst snd self trace fresh_session with_session sagemaker_session];
     rewrite ?Hsession;
     match goal with
     | |- context [create_inference_recommendations_job ?ses ?req] =>
         destruct (create_inference_recommendations_job ses req) as [ret_name|];
         [ destruct (wait_for_inference_recommendations_job ses ret_name
                       (RightSize.log_level a)) as [results|];
           [ destruct (method_get results "InferenceRecommendations") |] |];
         cbn [fst snd self trace fresh_session];
         eexists; exists req; eexists;
         (split; [ rewrite <- ?app_assoc; cbn [app]; reflexivity |]);
         repeat split
     end).
Qed.

(** What the translators can return. *)
Lemma endpoint_configurations_json_shape
    (hyperparameter_ranges : option (list (dict CategoricalParameter.t))) (e : pyval) :
  _convert_to_endpoint_configurations_json hyperparameter_ranges = Return e ->
  e = PNone \/ exists documents, e = PList documents.
Proof.
  unfold _convert_to_endpoint_configurations_json.
  destruct (negb (truthy_seq hyperparameter_ranges)).
  - intros [= <-]. now left.
  - destruct (iterate hyperparameter_ranges) as [entries|]; cbn [obind]; [|discriminate].
    destruct (for_each append_parameter_range_entry entries []) as [documents|];
      cbn [obind]; [|discriminate].
    intros [= <-]. right. now exists documents.
Qed.

Lemma traffic_pattern_json_truthy (traffic_type : pyval) (phases : option (list Phase.t))
    (t : pyval) :
  _convert_to_traffic_pattern_json traffic_type phases = Return t ->
  truthy t = supplied t.
Proof.
  unfold _convert_to_traffic_pattern_json.
  destruct (negb (truthy_seq phases)).
  - now intros [= <-].
  - destruct (iterate phases); cbn [obind]; [|discriminate]. now intros [= <-].
Qed.

Lemma stopping_conditions_json_truthy (max_invocations : pyval)
    (model_latency_thresholds : option (list ModelLatencyThreshold.t)) (s : pyval) :
  _convert_to_stopping_conditions_json max_invocations model_latency_thresholds = Return s ->
  truthy s = supplied s.
Proof.
  unfold _convert_to_stopping_conditions_json.
  destruct (negb (truthy max_invocations) && negb (truthy_seq model_latency_thresholds)).
  - now intros [= <-].
  - destruct (iterate model_latency_thresholds); cbn [obind]; [|discriminate].
    now intros [= <-].
Qed.

Lemma resource_limit_json_supplied (max_tests max_parallel_tests : pyval) :
  truthy (_convert_to_resource_limit_json max_tests max_parallel_tests) =
  supplied (_convert_to_resource_limit_json max_tests max_parallel_tests).
Proof.
  unfold _convert_to_resource_limit_json.
  now destruct (negb (truthy max_tests) && negb (truthy max_parallel_tests)).
Qed.

(** C1, as amended. On a registered model, a call to [right_size] whose
    translators return submits exactly one job, carrying the four fragments;
    its job type is "Advanced" if and only if the endpoint-configurations
    fragment is a non-empty list or at least one of the traffic-pattern,
    stopping-conditions and resource-limit fragments is non-null, and
    "Default" otherwise. *)
Theorem right_size_job_type :
  forall (a : RightSize.args) (w : World) (e t s : pyval),
    is_model_package (self w) = true ->
    _convert_to_endpoint_configurations_json (RightSize.hyperparameter_ranges a) = Return e ->
    _convert_to_traffic_pattern_json (RightSize.traffic_type a) (RightSize.phases a) =
      Return t ->
    _convert_to_stopping_conditions_json (RightSize.max_invocations a)
      (RightSize.model_latency_thresholds a) = Return s ->
    exists request : JobRequest.t,
      submitted_requests (trace (world_after (right_size a) w)) =
        (submitted_requests (trace w) ++ [request])%list /\
      JobRequest.endpoint_configurations request = e /\
      JobRequest.traffic_pattern request = t /\
      JobRequest.stopping_conditions request = s /\
      JobRequest.resource_limit request =
        _convert_to_resource_limit_json (RightSize.max_tests a)
          (RightSize.max_parallel_tests a) /\
      (e = PNone \/ exists documents, e = PList documents) /\
      (JobRequest.job_type request = "Advanced" <->
         (exists document documents, e = PList (document :: documents)) \/
         supplied t = true \/ supplied s = true \/
         supplied (JobRequest.resource_limit request) = true) /\
      (JobRequest.job_type request = "Default" <->
         ~ ((exists document documents, e = PList (document :: documents)) \/
            supplied t = true \/ supplied s = true \/
            supplied (JobRequest.resource_limit request) = true)).
Proof.
  intros a w e t s Hreg He Ht Hs.
  destruct (right_size_run a w e t s Hreg He Ht Hs)
    as (message & request & rest & Htrace & Hrest & Hjob & _ & Hre & Hrt & Hrs & Hrr).
  exists request. rewrite Htrace, submitted_requests_app. cbn [submitted_requests].
  rewrite Hrest, Hrr. repeat (split; [assumption || reflexivity|]).
  pose proof (endpoint_configurations_json_shape _ _ He) as Hshape.
  split; [exact Hshape|].
  rewrite Hjob. unfold any_truthy.
  rewrite (traffic_pattern_json_truthy _ _ _ Ht), (stopping_conditions_json_truthy _ _ _ Hs),
    resource_limit_json_supplied.
  set (r := _convert_to_resource_limit_json _ _).
  assert (Hlist : truthy e = true <-> exists document documents, e = PList (document :: documents)).
  { destruct Hshape as [->|[documents ->]].
    - split; [discriminate | now intros (? & ? & ?)].
    - destruct documents as [|document documents]; cbn [truthy].
      + split; [discriminate | now intros (? & ? & ?)].
      + split; [eauto | reflexivity]. }
  rewrite <- Hlist.
  destruct (truthy e), (supplied t), (supplied s), (supplied r); cbn [orb];
    intuition (discriminate || congruence).
Qed.

(** C1, as the specification words it, fails for a hyperparameter range
    whose [instance_types] parameter has no candidates: the endpoint
    translator returns the empty list, which is not null, the other three
    return null, and the job submitted is a "Default" one. *)
Lemma right_size_job_type_counterexample :
  _convert_to_endpoint_configurations_json
    (RightSize.hyperparameter_ranges args_without_candidates) = Return (PList []) /\
  _convert_to_traffic_pattern_json (RightSize.traffic_type args_without_candidates)
    (RightSize.phases args_without_candidates) = Return PNone /\
  _convert_to_stopping_conditions_json (RightSize.max_invocations args_without_candidates)
    (RightSize.model_latency_thresholds args_without_candidates) = Return PNone /\
  _convert_to_resource_limit_json (RightSize.max_tests args_without_candidates)
    (RightSize.max_parallel_tests args_without_candidates) = PNone /\
  job_type_as_specified (PList []) PNone PNone PNone = "Advanced" /\
  map JobRequest.job_type
      (submitted_requests
         (trace (world_after (right_size args_without_candidates)
                             (world_of pytorch_model_package)))) = ["Default"] /\
  map JobRequest.job_type
      (submitted_requests
         (trace (world_after (right_size args_without_candidates)
                             (world_of pytorch_model_package)))) <>
    [job_type_as_specified (PList []) PNone PNone PNone].
Proof. repeat split. discriminate. Qed.

(** The framework handed to the session is the [framework] argument, whatever
    the caller's detected framework: the table is looked up with the method
    object, which is none of its keys. *)
Lemma right_size_submits_given_framework (a : RightSize.args) (w : World) (e t s : pyval) :
  is_model_package (self w) = true ->
  _convert_to_endpoint_configurations_json (RightSize.hyperparameter_ranges a) = Return e ->
  _convert_to_traffic_pattern_json (RightSize.traffic_type a) (RightSize.phases a) =
    Return t ->
  _convert_to_stopping_conditions_json (RightSize.max_invocations a)
    (RightSize.model_latency_thresholds a) = Return s ->
  map JobRequest.framework (submitted_requests (trace (world_after (right_size a) w))) =
  (map JobRequest.framework (submitted_requests (trace w)) ++ [RightSize.framework a])%list.
Proof.
  intros Hreg He Ht Hs.
  destruct (right_size_run a w e t s Hreg He Ht Hs)
    as (message & request & rest & Htrace & Hrest & _ & Hframework & _).
  rewrite Htrace, submitted_requests_app. cbn [submitted_requests].
  rewrite Hrest, map_app. cbn [map]. now rewrite Hframework.
Qed.

(** C4. On a registered model whose detected framework is "pytorch", which
    the table maps to "PYTORCH", [right_size()] with no [framework] argument
    submits the framework [None]. *)
Theorem right_size_framework_not_derived :
  is_model_package pytorch_model_package = true /\
  _framework_call pytorch_model_package = PStr "pytorch" /\
  dict_get "pytorch" INFERENCE_RECOMMENDER_FRAMEWORK_MAPPING = Some (PStr "PYTORCH") /\
  RightSize.framework RightSize.defaults = PNone /\
  map JobRequest.framework
      (submitted_requests
         (trace (world_after (right_size RightSize.defaults)
                             (world_of pytorch_model_package)))) = [PNone].
Proof. repeat split. Qed.

(** C8. [right_size] on a caller that is not a registered model raises the
    usage error and leaves the world as it was: nothing is handed to the
    session, nothing is logged, no field of the caller changes. *)
Theorem right_size_requires_registered_model :
  forall (a : RightSize.args) (w : World),
    is_model_package (self w) = false ->
    right_size a w =
      (Raise (ValueError "right_size() is currently only supported with a registered model"),
       w).
Proof.
  intros a w Hreg. unfold right_size, abind, get_self. now rewrite Hreg.
Qed.

(** ** [_check_inference_recommender_args] *)

Lemma warning_run (message : string) (w : World) :
  (LOGGER_warning message ;; ret (@None (pyval * pyval))) w =
  (Return None,
   {| self := self w; fresh_session := fresh_session w;
      trace := (trace w ++ [Log "WARNING" message])%list |}).
Proof. reflexivity. Qed.

(** C2, as amended. The guard checks its rules in this order, each test
    being Python's truth test: a true [accelerator_type] raises the usage
    error; otherwise a true [instance_type] or [initial_instance_count] gives
    [None] after a warning; otherwise a true [async_inference_config] gives
    [None] after a warning; otherwise a true [serverless_inference_config]
    gives [None] after a warning; otherwise, when [inference_recommendations]
    has a first entry with an [EndpointConfiguration] holding [InstanceType]
    and [InitialInstanceCount], the guard returns that pair. *)
Theorem check_inference_recommender_args_order :
  forall (w : World)
         (instance_type initial_instance_count accelerator_type
          serverless_inference_config async_inference_config : pyval),
    let run := _check_inference_recommender_args instance_type initial_instance_count
                 accelerator_type serverless_inference_config async_inference_config w in
    (truthy accelerator_type = true ->
     run = (Raise (ValueError "accelerator_type is not compatible with right_size()."), w)) /\
    (truthy accelerator_type = false ->
     (truthy instance_type = true \/ truthy initial_instance_count = true ->
      fst run = Return None /\ self (snd run) = self w /\
      trace (snd run) =
        (trace w ++
         [Log "WARNING"
            "instance_type or initial_instance_count specified.Overriding right_size() recommendations."])%list) /\
     (truthy instance_type = false -> truthy initial_instance_count = false ->
      (truthy async_inference_config = true ->
       fst run = Return None /\ self (snd run) = self w /\
       trace (snd run) =
         (trace w ++
          [Log "WARNING"
             "async_inference_config is specified. Overriding right_size() recommendations."])%list) /\
      (truthy async_inference_config = false ->
       (truthy serverless_inference_config = true ->
        fst run = Return None /\ self (snd run) = self w /\
        trace (snd run) =
          (trace w ++
           [Log "WARNING"
              "serverless_inference_config is specified. Overriding right_size() recommendations."])%list) /\
       (truthy serverless_inference_config = false ->
        forall top others configuration recommended_type recommended_count,
          inference_recommendations (self w) = PList (top :: others) ->
          getitem_str top "EndpointConfiguration" = Return configuration ->
          getitem_str configuration "InstanceType" = Return recommended_type ->
          getitem_str configuration "InitialInstanceCount" = Return recommended_count ->
          run = (Return (Some (recommended_type, recommended_count)), w))))).
Proof.
  intros w it cnt acc sls asy run. subst run.
  unfold _check_inference_recommender_args. split.
  - intros ->. reflexivity.
  - intros ->. split.
    + intros H.
      assert (Hor : truthy it || truthy cnt = true)
        by (destruct H as [-> | ->]; [reflexivity | apply orb_true_r]).
      rewrite Hor, warning_run. now repeat split.
    + intros -> ->. cbn [orb]. split.
      * intros ->. rewrite warning_run. now repeat split.
      * intros ->. split.
        -- intros ->. rewrite warning_run. now repeat split.
        -- intros -> top others configuration ty count Hrecs Hconf Hty Hcount.
           unfold abind, get_self, lift, ret.
           rewrite Hrecs. cbn [getitem_0]. now rewrite Hconf, Hty, Hcount.
Qed.

(** C2, as the specification words it, fails on arguments that are given but
    false: with [accelerator_type = ""] the guard does not raise, and with
    [initial_instance_count = 0] it does not return [None]; both calls return
    the top recommendation. *)
Lemma check_inference_recommender_args_counterexample :
  supplied (PStr "") = true /\
  guard_as_specified (inference_recommendations right_sized_model)
    PNone PNone (PStr "") PNone PNone =
    Raise (ValueError "accelerator_type is not compatible with right_size().") /\
  result_of (_check_inference_recommender_args PNone PNone (PStr "") PNone PNone)
            (world_of right_sized_model) =
    Return (Some (PStr "ml.c5.xlarge", PInt 2)) /\
  supplied (PInt 0) = true /\
  guard_as_specified (inference_recommendations right_sized_model)
    PNone (PInt 0) PNone PNone PNone = Return None /\
  result_of (_check_inference_recommender_args PNone (PInt 0) PNone PNone PNone)
            (world_of right_sized_model) =
    Return (Some (PStr "ml.c5.xlarge", PInt 2)) /\
  result_of (_check_inference_recommender_args PNone PNone (PStr "") PNone PNone)
            (world_of right_sized_model) <>
    guard_as_specified (inference_recommendations right_sized_model)
      PNone PNone (PStr "") PNone PNone /\
  result_of (_check_inference_recommender_args PNone (PInt 0) PNone PNone PNone)
            (world_of right_sized_model) <>
    guard_as_specified (inference_recommendations right_sized_model)
      PNone (PInt 0) PNone PNone PNone.
Proof. repeat split; discriminate. Qed.

(** C9. With every argument of the guard absent (or false), the access
    [inference_recommendations[0]] is not guarded: it raises when the
    caller's [inference_recommendations] is [None] and when it is the empty
    list.  The branches that return [None] do so whatever
    [inference_recommendations] holds, so they never reach that access. *)
Theorem check_inference_recommender_args_unguarded_index :
  forall (w : World)
         (instance_type initial_instance_count accelerator_type
          serverless_inference_config async_inference_config : pyval),
    truthy accelerator_type = false ->
    (truthy instance_type = false -> truthy initial_instance_count = false ->
     truthy async_inference_config = false -> truthy serverless_inference_config = false ->
     (inference_recommendations (self w) = PNone ->
      _check_inference_recommender_args instance_type initial_instance_count
        accelerator_type serverless_inference_config async_inference_config w =
        (Raise (TypeError "object is not subscriptable"), w)) /\
     (inference_recommendations (self w) = PList [] ->
      _check_inference_recommender_args instance_type initial_instance_count
        accelerator_type serverless_inference_config async_inference_config w =
        (Raise (IndexError "list index out of range"), w))) /\
    (truthy instance_type = true \/ truthy initial_instance_count = true \/
     truthy async_inference_config = true \/ truthy serverless_inference_config = true ->
     result_of (_check_inference_recommender_args instance_type initial_instance_count
                  accelerator_type serverless_inference_config async_inference_config) w =
       Return None).
Proof.
  intros w it cnt acc sls asy Hacc.
  unfold result_of, _check_inference_recommender_args. rewrite Hacc. split.
  - intros -> -> -> ->. cbn [orb]. unfold abind, get_self, lift.
    split; intros ->; reflexivity.
  - intros H.
    destruct (truthy it || truthy cnt) eqn:E1; [reflexivity|].
    destruct (truthy asy) eqn:E2; [reflexivity|].
    destruct (truthy sls) eqn:E3; [reflexivity|].
    apply orb_false_elim in E1 as [E1a E1b].
    destruct H as [H|[H|[H|H]]]; congruence.
Qed.

(** ** Counterexamples to the translators as specified *)

(** C3, as the specification words it, fails when the thresholds are
    supplied as an empty list: the specified result is the mapping, the
    translator returns null. *)
Lemma stopping_conditions_json_counterexample :
  supplied_seq (Some (@nil ModelLatencyThreshold.t)) = true /\
  stopping_conditions_as_specified PNone (Some []) =
    Return (PDict [ ("MaxInvocations", PNone); ("ModelLatencyThresholds", PList []) ]) /\
  _convert_to_stopping_conditions_json PNone (Some []) = Return PNone /\
  _convert_to_stopping_conditions_json PNone (Some []) <>
    stopping_conditions_as_specified PNone (Some []).
Proof. repeat split. discriminate. Qed.

(** C7, as the specification words it, fails when the traffic type is
    supplied as the empty string: the specified TrafficType is the given
    one, the translator sends "PHASES". *)
Lemma traffic_pattern_json_counterexample :
  supplied (PStr "") = true /\
  traffic_pattern_as_specified (PStr "") (Some [sample_phase]) =
    Return (PDict [ ("Phases", PList [Phase.to_json sample_phase]);
                    ("TrafficType", PStr "") ]) /\
  _convert_to_traffic_pattern_json (PStr "") (Some [sample_phase]) =
    Return (PDict [ ("Phases", PList [Phase.to_json sample_phase]);
                    ("TrafficType", PStr "PHASES") ]) /\
  _convert_to_traffic_pattern_json (PStr "") (Some [sample_phase]) <>
    traffic_pattern_as_specified (PStr "") (Some [sample_phase]).
Proof. repeat split. discriminate. Qed.

(** ** The theorems at sample inputs *)

Lemma endpoint_configurations_json_spec_witness :
  _convert_to_endpoint_configurations_json (Some [sample_parameter_range]) =
    Return (PList
      [ PDict [ ("EnvironmentParameterRanges",
                 PDict [ ("CategoricalParameterRanges",
                          PList [ PDict [ ("Name", PStr "OMP_NUM_THREADS");
                                          ("Value", PList [PStr "1"; PStr "2"; PStr "3"; PStr "4"]) ] ]) ]);
                ("InstanceType", PStr "ml.c5.xlarge") ];
        PDict [ ("EnvironmentParameterRanges",
                 PDict [ ("CategoricalParameterRanges",
                          PList [ PDict [ ("Name", PStr "OMP_NUM_THREADS");
                                          ("Value", PList [PStr "1"; PStr "2"; PStr "3"; PStr "4"]) ] ]) ]);
                ("InstanceType", PStr "ml.c5.2xlarge") ] ]) /\
  length (expected_configurations [sample_parameter_range]) = 2.
Proof.
  destruct endpoint_configurations_json_spec as (_ & _ & H).
  destruct (H [sample_parameter_range]) as (Hresult & Hlength & _).
  - discriminate.
  - repeat constructor.
  - split; [exact Hresult | exact Hlength].
Defined.

Lemma endpoint_configurations_json_missing_instance_types_witness :
  _convert_to_endpoint_configurations_json
    (Some [sample_parameter_range; parameter_range_without_instance_types]) =
  Raise (ValueError "instance_type must be defined as a hyperparameter_range").
Proof.
  apply endpoint_configurations_json_missing_instance_types.
  right. left. reflexivity.
Defined.

Lemma resource_limit_json_by_truthiness_witness :
  _convert_to_resource_limit_json (PInt 5) PNone =
    PDict [ ("MaxNumberOfTests", PInt 5); ("MaxParallelOfTests", PNone) ] /\
  _convert_to_resource_limit_json (PInt 5) (PInt 2) =
    PDict [ ("MaxNumberOfTests", PInt 5); ("MaxParallelOfTests", PInt 2) ].
Proof.
  destruct resource_limit_json_by_truthiness as (_ & _ & Hany & Hone).
  split.
  - apply (Hone 5%Z). discriminate.
  - apply Hany. left. exists 5%Z. split; [reflexivity | discriminate].
Defined.

Lemma traffic_pattern_json_spec_witness :
  _convert_to_traffic_pattern_json PNone (Some [sample_phase; sample_phase]) =
    Return (PDict [ ("Phases", PList [Phase.to_json sample_phase; Phase.to_json sample_phase]);
                    ("TrafficType", PStr "PHASES") ]) /\
  _convert_to_traffic_pattern_json (PStr "STAIRS") (Some [sample_phase]) =
    Return (PDict [ ("Phases", PList [Phase.to_json sample_phase]);
                    ("TrafficType", PStr "STAIRS") ]) /\
  _convert_to_traffic_pattern_json (PStr "STAIRS") (Some []) = Return PNone.
Proof.
  split; [|split].
  - destruct (traffic_pattern_json_spec PNone (Some [sample_phase; sample_phase])) as [_ H].
    destruct (H [sample_phase; sample_phase] eq_refl) as [_ Hfalse].
    + discriminate.
    + apply Hfalse. reflexivity.
  - destruct (traffic_pattern_json_spec (PStr "STAIRS") (Some [sample_phase])) as [_ H].
    destruct (H [sample_phase] eq_refl) as [Htrue _].
    + discriminate.
    + apply Htrue. reflexivity.
  - destruct (traffic_pattern_json_spec (PStr "STAIRS") (Some [])) as [H _].
    apply H. right. reflexivity.
Defined.

Lemma stopping_conditions_json_spec_witness :
  _convert_to_stopping_conditions_json (PInt 10) (Some [sample_threshold]) =
    Return (PDict [ ("MaxInvocations", PInt 10);
                    ("ModelLatencyThresholds",
                     PList [ PDict [ ("Percentile", PStr "P95");
                                     ("ValueInMilliseconds", PInt 100) ] ]) ]) /\
  _convert_to_stopping_conditions_json PNone (Some [sample_threshold]) =
    Return (PDict [ ("MaxInvocations", PNone);
                    ("ModelLatencyThresholds",
                     PList [ PDict [ ("Percentile", PStr "P95");
                                     ("ValueInMilliseconds", PInt 100) ] ]) ]) /\
  _convert_to_stopping_conditions_json (PInt 0) None = Return PNone.
Proof.
  split; [|split].
  - destruct (stopping_conditions_json_spec (PInt 10) (Some [sample_threshold]))
      as (_ & _ & H).
    apply (H [(PStr "P95", PInt 100)] eq_refl). left. reflexivity.
  - destruct (stopping_conditions_json_spec PNone (Some [sample_threshold]))
      as (_ & _ & H).
    apply (H [(PStr "P95", PInt 100)] eq_refl). right. discriminate.
  - destruct (stopping_conditions_json_spec (PInt 0) None) as (H & _).
    apply H; reflexivity.
Defined.

Lemma right_size_job_type_witness :
  exists request : JobRequest.t,
    submitted_requests
      (trace (world_after (right_size args_without_candidates)
                          (world_of pytorch_model_package))) = [request] /\
    JobRequest.endpoint_configurations request = PList [] /\
    (JobRequest.job_type request = "Advanced" <->
       (exists document documents, PList [] = PList (document :: documents)) \/
       supplied PNone = true \/ supplied PNone = true \/
       supplied (JobRequest.resource_limit request) = true).
Proof.
  destruct (right_size_job_type args_without_candidates (world_of pytorch_model_package)
              (PList []) PNone PNone eq_refl eq_refl eq_refl eq_refl)
    as (request & Hsubmitted & He & _ & _ & _ & _ & Hadvanced & _).
  exists request. split; [exact Hsubmitted|]. split; [exact He | exact Hadvanced].
Defined.

Lemma right_size_requires_registered_model_witness :
  right_size RightSize.defaults (world_of unregistered_model) =
  (Raise (ValueError "right_size() is currently only supported with a registered model"),
   world_of unregistered_model).
Proof.
  apply right_size_requires_registered_model. reflexivity.
Defined.

Lemma check_inference_recommender_args_order_witness :
  _check_inference_recommender_args PNone PNone PNone PNone PNone
    (world_of right_sized_model) =
    (Return (Some (PStr "ml.c5.xlarge", PInt 2)), world_of right_sized_model) /\
  fst (_check_inference_recommender_args (PStr "ml.m5.large") PNone PNone PNone PNone
         (world_of right_sized_model)) = Return None /\
  _check_inference_recommender_args PNone PNone (PStr "ml.eia2.medium") PNone PNone
    (world_of right_sized_model) =
    (Raise (ValueError "accelerator_type is not compatible with right_size()."),
     world_of right_sized_model).
Proof.
  split; [|split].
  - destruct (check_inference_recommender_args_order (world_of right_sized_model)
                PNone PNone PNone PNone PNone) as [_ H].
    destruct (H eq_refl) as [_ H1].
    destruct (H1 eq_refl eq_refl) as [_ H2].
    destruct (H2 eq_refl) as [_ H3].
    apply (H3 eq_refl top_recommendation []
              (PDict [ ("InstanceType", PStr "ml.c5.xlarge");
                       ("InitialInstanceCount", PInt 2) ])); reflexivity.
  - destruct (check_inference_recommender_args_order (world_of right_sized_model)
                (PStr "ml.m5.large") PNone PNone PNone PNone) as [_ H].
    destruct (H eq_refl) as [H1 _].
    destruct H1 as [Hresult _]; [left; reflexivity | exact Hresult].
  - destruct (check_inference_recommender_args_order (world_of right_sized_model)
                PNone PNone (PStr "ml.eia2.medium") PNone PNone) as [H _].
    apply H. reflexivity.
Defined.

Lemma check_inference_recommender_args_unguarded_index_witness :
  _check_inference_recommender_args PNone PNone PNone PNone PNone
    (world_of pytorch_model_package) =
    (Raise (TypeError "object is not subscriptable"), world_of pytorch_model_package) /\
  result_of (_check_inference_recommender_args (PStr "ml.m5.large") PNone PNone PNone PNone)
            (world_of pytorch_model_package) = Return None.
Proof.
  destruct (check_inference_recommender_args_unguarded_index (world_of pytorch_model_package)
              PNone PNone PNone PNone PNone eq_refl) as [Hindex _].
  destruct (Hindex eq_refl eq_refl eq_refl eq_refl) as [Hnone _].
  destruct (check_inference_recommender_args_unguarded_index (world_of pytorch_model_package)
              (PStr "ml.m5.large") PNone PNone PNone PNone eq_refl) as [_ Hoverride].
  split.
  - apply Hnone. reflexivity.
  - apply Hoverride. left. reflexivity.
Defined.

(** ** When the translators raise *)

Lemma traffic_pattern_json_returns (traffic_type : pyval) (phases : option (list Phase.t)) :
  exists t, _convert_to_traffic_pattern_json traffic_type phases = Return t.
Proof.
  unfold _convert_to_traffic_pattern_json.
  destruct phases as [[|phase rest]|]; cbn [truthy_seq negb iterate obind]; eauto.
Qed.

Lemma instance_types_dichotomy (entries : list (dict CategoricalParameter.t)) :
  Forall (fun entry => dict_has "instance_types" entry = true) entries \/
  Exists (fun entry => dict_has "instance_types" entry = false) entries.
Proof.
  induction entries as [|entry entries [IH|IH]].
  - left. constructor.
  - destruct (dict_has "instance_types" entry) eqn:E.
    + left. now constructor.
    + right. now left.
  - right. now right.
Qed.

Lemma forall_exists_exclusive (entries : list (dict CategoricalParameter.t)) :
  Forall (fun entry => dict_has "instance_types" entry = true) entries ->
  Exists (fun entry => dict_has "instance_types" entry = false) entries -> False.
Proof.
  intros Hall Hex. rewrite Forall_forall in Hall. rewrite Exists_exists in Hex.
  destruct Hex as (entry & Hin & Hlack). specialize (Hall entry Hin). congruence.
Qed.

Lemma endpoint_configurations_json_some (entries : list (dict CategoricalParameter.t)) :
  _convert_to_endpoint_configurations_json (Some entries) =
  match entries with
  | [] => Return PNone
  | _ :: _ =>
      obind (for_each append_parameter_range_entry entries [])
            (fun configurations => Return (PList configurations))
  end.
Proof. destruct entries; reflexivity. Qed.

(** X1. The endpoint-configuration translator returns exactly when every entry of
    its input has [instance_types]; the only exception it raises is the
    usage error. *)
Theorem endpoint_configurations_json_returns_iff :
  forall hyperparameter_ranges : option (list (dict CategoricalParameter.t)),
    ((exists fragment,
        _convert_to_endpoint_configurations_json hyperparameter_ranges = Return fragment) <->
     Forall (fun entry => dict_has "instance_types" entry = true)
            (elements hyperparameter_ranges)) /\
    (forall e, _convert_to_endpoint_configurations_json hyperparameter_ranges = Raise e ->
       e = ValueError "instance_type must be defined as a hyperparameter_range").
Proof.
  intros [entries|]; cbn [elements].
  - rewrite endpoint_configurations_json_some.
    destruct entries as [|entry entries].
    + split; [|discriminate]. split; [constructor | eauto].
    + destruct (instance_types_dichotomy (entry :: entries)) as [Hall|Hex].
      * rewrite entries_loop by assumption. cbn [obind].
        split; [|discriminate]. split; [trivial | eauto].
      * rewrite entries_loop_raises by assumption. cbn [obind].
        split; [|now intros e [= <-]].
        split; [intros [? [=]] | intros Hall; destruct (forall_exists_exclusive _ Hall Hex)].
  - split; [|discriminate]. split; [constructor | intros _; now exists PNone].
Qed.

(** X2. The stopping-conditions translator raises exactly when [max_invocations]
    is true and [model_latency_thresholds] is [None], and then with a
    [TypeError]. *)
Theorem stopping_conditions_json_raises_iff :
  forall (max_invocations : pyval)
         (model_latency_thresholds : option (list ModelLatencyThreshold.t)),
    ((exists e, _convert_to_stopping_conditions_json max_invocations
                  model_latency_thresholds = Raise e) <->
     truthy max_invocations = true /\ model_latency_thresholds = None) /\
    (forall e, _convert_to_stopping_conditions_json max_invocations
                 model_latency_thresholds = Raise e ->
       e = TypeError "'NoneType' object is not iterable").
Proof.
  intros max_invocations model_latency_thresholds.
  unfold _convert_to_stopping_conditions_json.
  destruct (truthy max_invocations) eqn:Hmi;
    destruct model_latency_thresholds as [[|threshold rest]|];
    cbn [truthy_seq negb andb iterate obind];
    (split; [split; [intros [e [=]] | intros [H1 H2]; try discriminate]
            | intros e [=]; subst; try reflexivity]);
    try (split; reflexivity); eauto.
Qed.

(** ** Runs of [right_size] *)

Lemma framework_step (a : RightSize.args) (this : Model) :
  (if negb (truthy (RightSize.framework a)) && truthy (_framework_call this)
   then lift (dict_get_default INFERENCE_RECOMMENDER_FRAMEWORK_MAPPING
                (_framework_attribute this) (RightSize.framework a))
   else ret (RightSize.framework a)) = ret (RightSize.framework a).
Proof.
  destruct (negb (truthy (RightSize.framework a)) && truthy (_framework_call this));
    reflexivity.
Qed.

(** What is left of [right_size] on a registered model once the translators
    have returned: the log record, the session, the two calls and the two
    assignments. *)
Lemma right_size_after_translators (a : RightSize.args) (w : World) (e t s : pyval) :
  is_model_package (self w) = true ->
  _convert_to_endpoint_configurations_json (RightSize.hyperparameter_ranges a) = Return e ->
  _convert_to_traffic_pattern_json (RightSize.traffic_type a) (RightSize.phases a) =
    Return t ->
  _convert_to_stopping_conditions_json (RightSize.max_invocations a)
    (RightSize.model_latency_thresholds a) = Return s ->
  let r := _convert_to_resource_limit_json (RightSize.max_tests a)
             (RightSize.max_parallel_tests a) in
  let request := job_request (self w) a e t s in
  let submitted :=
    (trace w ++ [Log "INFO" (job_type_message e t s r); CreateJob request])%list in
  right_size a w =
  match create_inference_recommendations_job (active_session w) request with
  | Raise x =>
      (Raise x,
       {| self := ensure_session w; fresh_session := fresh_session w; trace := submitted |})
  | Return ret_name =>
      let awaited := (submitted ++ [WaitJob ret_name (RightSize.log_level a)])%list in
      match wait_for_inference_recommendations_job (active_session w) ret_name
              (RightSize.log_level a) with
      | Raise x =>
          (Raise x,
           {| self := ensure_session w; fresh_session := fresh_session w;
              trace := awaited |})
      | Return results =>
          match method_get results "InferenceRecommendations" with
          | Raise x =>
              (Raise x,
               {| self := with_job_results results (ensure_session w);
                  fresh_session := fresh_session w; trace := awaited |})
          | Return recommendations =>
              (Return tt,
               {| self := with_recommendations recommendations
                            (with_job_results results (ensure_session w));
                  fresh_session := fresh_session w; trace := awaited |})
          end
      end
  end.
Proof.
  intros Hreg He Ht Hs r request submitted. subst submitted request.
  unfold right_size, abind at 1, get_self.
  rewrite Hreg. cbn [negb].
  rewrite framework_step, He, Ht, Hs.
  fold r.
  unfold job_request, job_type_of, job_type_message, active_session, ensure_session.
  fold r.
  unfold abind, ret, lift, LOGGER_info, emit, _init_sagemaker_session_if_does_not_exist,
    the_session, update_self.
  cbn [fst snd self trace fresh_session].
  destruct (any_truthy e t s r);
    cbn [fst snd self trace fresh_session];
    (destruct (sagemaker_session (self w)) as [session|] eqn:Hsession;
     cbn [fst snd self trace fresh_session with_session sagemaker_session];
     rewrite ?Hsession;
     match goal with
     | |- context [create_inference_recommendations_job ?ses ?req] =>
         destruct (create_inference_recommendations_job ses req) as [ret_name|];
         [ destruct (wait_for_inference_recommendations_job ses ret_name
                       (RightSize.log_level a)) as [results|];
           [ destruct (method_get results "InferenceRecommendations") |] |];
         cbn [fst snd self trace fresh_session];
         rewrite <- ?app_assoc; reflexivity
     end).
Qed.

Lemma ensure_session_has_session (w : World) :
  sagemaker_session (ensure_session w) = Some (active_session w).
Proof.
  unfold ensure_session, active_session.
  destruct (sagemaker_session (self w)) eqn:E; [exact E | reflexivity].
Qed.

Lemma ensure_session_keeps (w : World) :
  is_model_package (ensure_session w) = is_model_package (self w) /\
  role (ensure_session w) = role (self w) /\
  model_package_arn (ensure_session w) = model_package_arn (self w) /\
  inference_recommender_job_results (ensure_session w) =
    inference_recommender_job_results (self w) /\
  inference_recommendations (ensure_session w) = inference_recommendations (self w).
Proof.
  unfold ensure_session. destruct (sagemaker_session (self w)); repeat split.
Qed.

(** With every argument of the guard at its default, a caller whose first
    recommendation carries the two fields gets them back. *)
Lemma check_defaults_top_recommendation (w : World)
    (top : pyval) (others : list pyval) (configuration recommended_type recommended_count : pyval) :
  inference_recommendations (self w) = PList (top :: others) ->
  getitem_str top "EndpointConfiguration" = Return configuration ->
  getitem_str configuration "InstanceType" = Return recommended_type ->
  getitem_str configuration "InitialInstanceCount" = Return recommended_count ->
  _check_inference_recommender_args PNone PNone PNone PNone PNone w =
  (Return (Some (recommended_type, recommended_count)), w).
Proof.
  intros Hrecs Hconf Hty Hcount.
  unfold _check_inference_recommender_args. cbn [truthy orb].
  unfold abind, get_self, lift, ret.
  rewrite Hrecs. cbn [getitem_0]. now rewrite Hconf, Hty, Hcount.
Qed.

(** X3. On a registered model, an exception of a translator is the exception of
    [right_size], raised in an unchanged world: nothing is logged, no session
    is created, nothing is handed to the session. *)
Theorem right_size_translator_failure :
  forall (a : RightSize.args) (w : World),
    is_model_package (self w) = true ->
    (forall x,
       _convert_to_endpoint_configurations_json (RightSize.hyperparameter_ranges a) =
         Raise x ->
       right_size a w = (Raise x, w)) /\
    (forall e x,
       _convert_to_endpoint_configurations_json (RightSize.hyperparameter_ranges a) =
         Return e ->
       _convert_to_stopping_conditions_json (RightSize.max_invocations a)
         (RightSize.model_latency_thresholds a) = Raise x ->
       right_size a w = (Raise x, w)).
Proof.
  intros a w Hreg.
  split.
  - intros x He. unfold right_size, abind at 1, get_self.
    rewrite Hreg. cbn [negb]. rewrite framework_step, He. reflexivity.
  - intros e x He Hs.
    destruct (traffic_pattern_json_returns (RightSize.traffic_type a) (RightSize.phases a))
      as [t Ht].
    unfold right_size, abind at 1, get_self.
    rewrite Hreg. cbn [negb]. rewrite framework_step, He, Ht, Hs. reflexivity.
Qed.

(** X4. A run of [right_size] that the session answers: the call returns, the
    caller holds the session's result and the list found under
    "InferenceRecommendations" ([None] when the key is missing), it has a
    session, and the world saw one log record, one job creation carrying the
    arguments and the fragments, and one wait for the name the creation
    returned. *)
Theorem right_size_stores_results :
  forall (a : RightSize.args) (w : World) (e t s ret_name : pyval)
         (result_items : dict pyval),
    is_model_package (self w) = true ->
    _convert_to_endpoint_configurations_json (RightSize.hyperparameter_ranges a) = Return e ->
    _convert_to_traffic_pattern_json (RightSize.traffic_type a) (RightSize.phases a) =
      Return t ->
    _convert_to_stopping_conditions_json (RightSize.max_invocations a)
      (RightSize.model_latency_thresholds a) = Return s ->
    create_inference_recommendations_job (active_session w) (job_request (self w) a e t s) =
      Return ret_name ->
    wait_for_inference_recommendations_job (active_session w) ret_name
      (RightSize.log_level a) = Return (PDict result_items) ->
    result_of (right_size a) w = Return tt /\
    inference_recommender_job_results (self (world_after (right_size a) w)) =
      PDict result_items /\
    inference_recommendations (self (world_after (right_size a) w)) =
      match dict_get "InferenceRecommendations" result_items with
      | Some recommendations => recommendations
      | None => PNone
      end /\
    sagemaker_session (self (world_after (right_size a) w)) = Some (active_session w) /\
    is_model_package (self (world_after (right_size a) w)) = true /\
    role (self (world_after (right_size a) w)) = role (self w) /\
    model_package_arn (self (world_after (right_size a) w)) = model_package_arn (self w) /\
    trace (world_after (right_size a) w) =
      (trace w ++
       [ Log "INFO"
             (job_type_message e t s
                (_convert_to_resource_limit_json (RightSize.max_tests a)
                   (RightSize.max_parallel_tests a)));
         CreateJob (job_request (self w) a e t s);
         WaitJob ret_name (RightSize.log_level a) ])%list.
Proof.
  intros a w e t s ret_name result_items Hreg He Ht Hs Hcreate Hwait.
  unfold result_of, world_after.
  rewrite (right_size_after_translators a w e t s Hreg He Ht Hs).
  cbv zeta. rewrite Hcreate, Hwait. cbn [method_get fst snd self trace].
  destruct (ensure_session_keeps w) as (Hk1 & Hk2 & Hk3 & _).
  cbn [with_recommendations with_job_results inference_recommender_job_results
       inference_recommendations sagemaker_session is_model_package role model_package_arn].
  rewrite ensure_session_has_session, Hk1, Hk2, Hk3, Hreg, <- app_assoc.
  repeat split.
Qed.

(** X5. [right_size] and then the guard: when the session's result lists a first
    recommendation with an EndpointConfiguration, the guard called with its
    defaults on the right-sized caller returns that recommendation's
    (InstanceType, InitialInstanceCount). *)
Theorem right_size_then_check :
  forall (a : RightSize.args) (w : World) (e t s ret_name : pyval)
         (result_items : dict pyval)
         (top : pyval) (others : list pyval)
         (configuration recommended_type recommended_count : pyval),
    is_model_package (self w) = true ->
    _convert_to_endpoint_configurations_json (RightSize.hyperparameter_ranges a) = Return e ->
    _convert_to_traffic_pattern_json (RightSize.traffic_type a) (RightSize.phases a) =
      Return t ->
    _convert_to_stopping_conditions_json (RightSize.max_invocations a)
      (RightSize.model_latency_thresholds a) = Return s ->
    create_inference_recommendations_job (active_session w) (job_request (self w) a e t s) =
      Return ret_name ->
    wait_for_inference_recommendations_job (active_session w) ret_name
      (RightSize.log_level a) = Return (PDict result_items) ->
    dict_get "InferenceRecommendations" result_items = Some (PList (top :: others)) ->
    getitem_str top "EndpointConfiguration" = Return configuration ->
    getitem_str configuration "InstanceType" = Return recommended_type ->
    getitem_str configuration "InitialInstanceCount" = Return recommended_count ->
    result_of (_check_inference_recommender_args PNone PNone PNone PNone PNone)
              (world_after (right_size a) w) =
      Return (Some (recommended_type, recommended_count)).
Proof.
  intros a w e t s ret_name result_items top others configuration ty count
         Hreg He Ht Hs Hcreate Hwait Hkey Hconf Hty Hcount.
  unfold result_of.
  rewrite (check_defaults_top_recommendation _ top others configuration ty count);
    try assumption; [reflexivity|].
  unfold world_after.
  rewrite (right_size_after_translators a w e t s Hreg He Ht Hs).
  cbv zeta. rewrite Hcreate, Hwait. cbn [method_get]. now rewrite Hkey.
Qed.

(** X6. When the session's result has no "InferenceRecommendations", [right_size]
    still returns, the caller's [inference_recommendations] is [None], and
    the guard called with its defaults then raises a [TypeError]. *)
Theorem right_size_without_recommendations :
  forall (a : RightSize.args) (w : World) (e t s ret_name : pyval)
         (result_items : dict pyval),
    is_model_package (self w) = true ->
    _convert_to_endpoint_configurations_json (RightSize.hyperparameter_ranges a) = Return e ->
    _convert_to_traffic_pattern_json (RightSize.traffic_type a) (RightSize.phases a) =
      Return t ->
    _convert_to_stopping_conditions_json (RightSize.max_invocations a)
      (RightSize.model_latency_thresholds a) = Return s ->
    create_inference_recommendations_job (active_session w) (job_request (self w) a e t s) =
      Return ret_name ->
    wait_for_inference_recommendations_job (active_session w) ret_name
      (RightSize.log_level a) = Return (PDict result_items) ->
    dict_get "InferenceRecommendations" result_items = None ->
    result_of (right_size a) w = Return tt /\
    inference_recommendations (self (world_after (right_size a) w)) = PNone /\
    result_of (_check_inference_recommender_args PNone PNone PNone PNone PNone)
              (world_after (right_size a) w) =
      Raise (TypeError "object is not subscriptable").
Proof.
  intros a w e t s ret_name result_items Hreg He Ht Hs Hcreate Hwait Hkey.
  unfold result_of, world_after.
  rewrite (right_size_after_translators a w e t s Hreg He Ht Hs).
  cbv zeta. rewrite Hcreate, Hwait. cbn [method_get]. rewrite Hkey.
  repeat split.
Qed.

(** X7. An exception of the session is the exception of [right_size].  When the
    job creation raises, the job is not awaited; when the wait raises, it was
    awaited once.  Either way the caller's earlier results and
    recommendations stay as they were. *)
Theorem right_size_session_failure :
  forall (a : RightSize.args) (w : World) (e t s : pyval),
    is_model_package (self w) = true ->
    _convert_to_endpoint_configurations_json (RightSize.hyperparameter_ranges a) = Return e ->
    _convert_to_traffic_pattern_json (RightSize.traffic_type a) (RightSize.phases a) =
      Return t ->
    _convert_to_stopping_conditions_json (RightSize.max_invocations a)
      (RightSize.model_latency_thresholds a) = Return s ->
    (forall x,
       create_inference_recommendations_job (active_session w)
         (job_request (self w) a e t s) = Raise x ->
       result_of (right_size a) w = Raise x /\
       trace (world_after (right_size a) w) =
         (trace w ++
          [ Log "INFO"
                (job_type_message e t s
                   (_convert_to_resource_limit_json (RightSize.max_tests a)
                      (RightSize.max_parallel_tests a)));
            CreateJob (job_request (self w) a e t s) ])%list /\
       inference_recommender_job_results (self (world_after (right_size a) w)) =
         inference_recommender_job_results (self w) /\
       inference_recommendations (self (world_after (right_size a) w)) =
         inference_recommendations (self w)) /\
    (forall ret_name x,
       create_inference_recommendations_job (active_session w)
         (job_request (self w) a e t s) = Return ret_name ->
       wait_for_inference_recommendations_job (active_session w) ret_name
         (RightSize.log_level a) = Raise x ->
       result_of (right_size a) w = Raise x /\
       trace (world_after (right_size a) w) =
         (trace w ++
          [ Log "INFO"
                (job_type_message e t s
                   (_convert_to_resource_limit_json (RightSize.max_tests a)
                      (RightSize.max_parallel_tests a)));
            CreateJob (job_request (self w) a e t s);
            WaitJob ret_name (RightSize.log_level a) ])%list /\
       inference_recommender_job_results (self (world_after (right_size a) w)) =
         inference_recommender_job_results (self w) /\
       inference_recommendations (self (world_after (right_size a) w)) =
         inference_recommendations (self w)).
Proof.
  intros a w e t s Hreg He Ht Hs.
  destruct (ensure_session_keeps w) as (_ & _ & _ & Hk4 & Hk5).
  unfold result_of, world_after.
  rewrite (right_size_after_translators a w e t s Hreg He Ht Hs). cbv zeta.
  split.
  - intros x Hcreate. rewrite Hcreate. cbn [fst snd self trace].
    now rewrite Hk4, Hk5.
  - intros ret_name x Hcreate Hwait. rewrite Hcreate, Hwait. cbn [fst snd self trace].
    now rewrite Hk4, Hk5, <- app_assoc.
Qed.

(** ** Which arguments make an Advanced job *)







(** ** The guard leaves the caller alone *)

(** X9. Whatever its arguments and whatever the caller holds, the guard changes
    no field of the caller and hands nothing to the session; it logs either
    nothing or one WARNING record, and it logs that record exactly on the
    runs that return [None]. *)
Theorem check_inference_recommender_args_only_logs :
  forall (w : World)
         (instance_type initial_instance_count accelerator_type
          serverless_inference_config async_inference_config : pyval),
    self (world_after (_check_inference_recommender_args instance_type
            initial_instance_count accelerator_type serverless_inference_config
            async_inference_config) w) = self w /\
    submitted_requests (trace (world_after (_check_inference_recommender_args instance_type
            initial_instance_count accelerator_type serverless_inference_config
            async_inference_config) w)) = submitted_requests (trace w) /\
    ((trace (world_after (_check_inference_recommender_args instance_type
            initial_instance_count accelerator_type serverless_inference_config
            async_inference_config) w) = trace w /\
      result_of (_check_inference_recommender_args instance_type
            initial_instance_count accelerator_type serverless_inference_config
            async_inference_config) w <> Return None) \/
     (exists message,
        trace (world_after (_check_inference_recommender_args instance_type
            initial_instance_count accelerator_type serverless_inference_config
            async_inference_config) w) = (trace w ++ [Log "WARNING" message])%list /\
        result_of (_check_inference_recommender_args instance_type
            initial_instance_count accelerator_type serverless_inference_config
            async_inference_config) w = Return None)).
Proof.
  intros w it cnt acc sls asy.
  unfold world_after, result_of, _check_inference_recommender_args.
  destruct (truthy acc).
  { cbn. split; [reflexivity|]. split; [reflexivity|]. left. split; [reflexivity | discriminate]. }
  destruct (truthy it || truthy cnt).
  { rewrite warning_run. cbn [fst snd self trace]. split; [reflexivity|].
    split; [rewrite submitted_requests_app; cbn; apply app_nil_r|]. right. eauto. }
  destruct (truthy asy).
  { rewrite warning_run. cbn [fst snd self trace]. split; [reflexivity|].
    split; [rewrite submitted_requests_app; cbn; apply app_nil_r|]. right. eauto. }
  destruct (truthy sls).
  { rewrite warning_run. cbn [fst snd self trace]. split; [reflexivity|].
    split; [rewrite submitted_requests_app; cbn; apply app_nil_r|]. right. eauto. }
  unfold abind, get_self, lift, ret.
  destruct (getitem_0 (inference_recommendations (self w))) as [top|];
    [destruct (getitem_str top "EndpointConfiguration") as [configuration|];
     [destruct (getitem_str configuration "InstanceType");
      [destruct (getitem_str configuration "InitialInstanceCount")|]|]|];
    cbn [fst snd]; (split; [reflexivity|]; split; [reflexivity|];
                    left; split; [reflexivity | discriminate]).
Qed.

(** X11. The guard returns a pair only on a call without any true override, and
    the pair is then what the caller's first recommendation holds. *)
Theorem check_inference_recommender_args_pair_origin :
  forall (w : World)
         (instance_type initial_instance_count accelerator_type
          serverless_inference_config async_inference_config : pyval)
         (recommended_type recommended_count : pyval),
    result_of (_check_inference_recommender_args instance_type initial_instance_count
                 accelerator_type serverless_inference_config async_inference_config) w =
      Return (Some (recommended_type, recommended_count)) ->
    truthy accelerator_type = false /\
    truthy instance_type = false /\
    truthy initial_instance_count = false /\
    truthy async_inference_config = false /\
    truthy serverless_inference_config = false /\
    exists top configuration,
      getitem_0 (inference_recommendations (self w)) = Return top /\
      getitem_str top "EndpointConfiguration" = Return configuration /\
      getitem_str configuration "InstanceType" = Return recommended_type /\
      getitem_str configuration "InitialInstanceCount" = Return recommended_count.
Proof.
  intros w it cnt acc sls asy ty count.
  unfold result_of, _check_inference_recommender_args.
  destruct (truthy acc); [discriminate|].
  destruct (truthy it); [discriminate|].
  destruct (truthy cnt); [discriminate|].
  destruct (truthy asy); [discriminate|].
  destruct (truthy sls); [discriminate|].
  cbn [orb]. unfold abind, get_self, lift, ret.
  destruct (getitem_0 (inference_recommendations (self w))) as [top|]; [|discriminate].
  destruct (getitem_str top "EndpointConfiguration") as [configuration|] eqn:Hconf;
    [|discriminate].
  destruct (getitem_str configuration "InstanceType") as [ty'|] eqn:Hty; [|discriminate].
  destruct (getitem_str configuration "InitialInstanceCount") as [count'|] eqn:Hcount;
    [|discriminate].
  cbn [fst]. intros [= <- <-].
  repeat (split; [reflexivity|]). exists top, configuration. now repeat split.
Qed.




(** ** More theorems at sample inputs *)

Lemma endpoint_configurations_json_returns_iff_witness :
  (exists fragment,
     _convert_to_endpoint_configurations_json (Some [sample_parameter_range]) =
       Return fragment) /\
  ~ Forall (fun entry => dict_has "instance_types" entry = true)
           [sample_parameter_range; parameter_range_without_instance_types].
Proof.
  split.
  - apply (endpoint_configurations_json_returns_iff (Some [sample_parameter_range])).
    repeat constructor.
  - intros Hall.
    destruct (endpoint_configurations_json_returns_iff
                (Some [sample_parameter_range; parameter_range_without_instance_types]))
      as [[_ Hreturns] _].
    destruct (Hreturns Hall) as [fragment Hfragment]. discriminate Hfragment.
Defined.

Lemma stopping_conditions_json_raises_iff_witness :
  exists e, _convert_to_stopping_conditions_json (PInt 10) None = Raise e.
Proof.
  apply (stopping_conditions_json_raises_iff (PInt 10) None). split; reflexivity.
Defined.

Lemma right_size_translator_failure_witness :
  right_size args_max_invocations_only (world_of pytorch_model_package) =
    (Raise (TypeError "'NoneType' object is not iterable"), world_of pytorch_model_package) /\
  right_size (with_hyperparameter_ranges (Some [parameter_range_without_instance_types])
                RightSize.defaults)
             (world_of pytorch_model_package) =
    (Raise (ValueError "instance_type must be defined as a hyperparameter_range"),
     world_of pytorch_model_package).
Proof.
  split.
  - destruct (right_size_translator_failure args_max_invocations_only
                (world_of pytorch_model_package) eq_refl) as [_ H].
    apply (H PNone); reflexivity.
  - destruct (right_size_translator_failure
                (with_hyperparameter_ranges (Some [parameter_range_without_instance_types])
                   RightSize.defaults)
                (world_of pytorch_model_package) eq_refl) as [H _].
    apply H. reflexivity.
Defined.

Lemma right_size_stores_results_witness :
  result_of (right_size args_with_phases) (world_of pytorch_model_package) = Return tt /\
  inference_recommendations
    (self (world_after (right_size args_with_phases) (world_of pytorch_model_package))) =
    PList [top_recommendation] /\
  sagemaker_session
    (self (world_after (right_size args_with_phases) (world_of pytorch_model_package))) =
    Some sample_session.
Proof.
  destruct (right_size_stores_results args_with_phases (world_of pytorch_model_package)
              PNone
              (PDict [ ("Phases", PList [Phase.to_json sample_phase]);
                       ("TrafficType", PStr "PHASES") ])
              PNone (PStr "job-1")
              [ ("Status", PStr "COMPLETED");
                ("InferenceRecommendations", PList [top_recommendation]) ]
              eq_refl eq_refl eq_refl eq_refl eq_refl eq_refl)
    as (Hresult & _ & Hrecommendations & Hsession & _).
  split; [exact Hresult|]. split; [exact Hrecommendations | exact Hsession].
Defined.

Lemma right_size_then_check_witness :
  result_of (_check_inference_recommender_args PNone PNone PNone PNone PNone)
            (world_after (right_size args_with_phases) (world_of pytorch_model_package)) =
  Return (Some (PStr "ml.c5.xlarge", PInt 2)).
Proof.
  apply (right_size_then_check args_with_phases (world_of pytorch_model_package)
           PNone
           (PDict [ ("Phases", PList [Phase.to_json sample_phase]);
                    ("TrafficType", PStr "PHASES") ])
           PNone (PStr "job-1")
           [ ("Status", PStr "COMPLETED");
             ("InferenceRecommendations", PList [top_recommendation]) ]
           top_recommendation []
           (PDict [ ("InstanceType", PStr "ml.c5.xlarge");
                    ("InitialInstanceCount", PInt 2) ]));
    reflexivity.
Defined.

Lemma right_size_without_recommendations_witness :
  inference_recommendations
    (self (world_after (right_size RightSize.defaults)
             (world_with session_without_recommendations pytorch_model_package))) = PNone /\
  result_of (_check_inference_recommender_args PNone PNone PNone PNone PNone)
            (world_after (right_size RightSize.defaults)
               (world_with session_without_recommendations pytorch_model_package)) =
    Raise (TypeError "object is not subscriptable").
Proof.
  destruct (right_size_without_recommendations RightSize.defaults
              (world_with session_without_recommendations pytorch_model_package)
              PNone PNone PNone (PStr "job-1") [ ("Status", PStr "COMPLETED") ]
              eq_refl eq_refl eq_refl eq_refl eq_refl eq_refl eq_refl)
    as (_ & Hrecommendations & Hguard).
  split; [exact Hrecommendations | exact Hguard].
Defined.

Lemma right_size_session_failure_witness :
  result_of (right_size RightSize.defaults)
            (world_with refusing_session right_sized_model) =
    Raise (RemoteError "ValidationException") /\
  inference_recommendations
    (self (world_after (right_size RightSize.defaults)
             (world_with refusing_session right_sized_model))) =
    PList [top_recommendation] /\
  result_of (right_size RightSize.defaults)
            (world_with timing_out_session right_sized_model) =
    Raise (RemoteError "Inference Recommendations Job failed").
Proof.
  destruct (right_size_session_failure RightSize.defaults
              (world_with refusing_session right_sized_model) PNone PNone PNone
              eq_refl eq_refl eq_refl eq_refl) as [Hcreate _].
  destruct (Hcreate (RemoteError "ValidationException") eq_refl)
    as (Hresult & _ & _ & Hrecommendations).
  destruct (right_size_session_failure RightSize.defaults
              (world_with timing_out_session right_sized_model) PNone PNone PNone
              eq_refl eq_refl eq_refl eq_refl) as [_ Hwait].
  destruct (Hwait (PStr "job-1") (RemoteError "Inference Recommendations Job failed")
              eq_refl eq_refl) as (Hresult' & _).
  split; [exact Hresult|]. split; [exact Hrecommendations | exact Hresult'].
Defined.


Lemma right_size_submits_given_framework_witness :
  map JobRequest.framework
      (submitted_requests
         (trace (world_after (right_size args_with_phases)
                             (world_of pytorch_model_package)))) = [PStr "XGBOOST"].
Proof.
  apply (right_size_submits_given_framework args_with_phases
           (world_of pytorch_model_package) PNone
           (PDict [ ("Phases", PList [Phase.to_json sample_phase]);
                    ("TrafficType", PStr "PHASES") ])
           PNone); reflexivity.
Defined.

Lemma check_inference_recommender_args_pair_origin_witness :
  truthy PNone = false /\
  exists top configuration,
    getitem_0 (inference_recommendations (self (world_of right_sized_model))) = Return top /\
    getitem_str top "EndpointConfiguration" = Return configuration /\
    getitem_str configuration "InstanceType" = Return (PStr "ml.c5.xlarge") /\
    getitem_str configuration "InitialInstanceCount" = Return (PInt 2).
Proof.
  destruct (check_inference_recommender_args_pair_origin (world_of right_sized_model)
              PNone PNone PNone PNone PNone (PStr "ml.c5.xlarge") (PInt 2) eq_refl)
    as (Hacc & _ & _ & _ & _ & Horigin).
  split; [exact Hacc | exact Horigin].
Defined.

